(** * QueryLab: the AI-response classifier and the SQL safety gate

    A shallow embedding of [parseAIResponse] (Backend/src/lib/aiCodes.ts) and
    of [validateSql] (Backend/src/lib/services/sql/validation.ts), with the
    part of JavaScript they rely on: strings as sequences of UTF-16 code
    units, [String.prototype.trim/split/replace/match], and a backtracking
    matcher for the regular expressions the two functions use. *)

From Stdlib Require Import List NArith ZArith Bool Arith Lia String Ascii.
From Stdlib Require Import Numbers.DecimalString.
Import ListNotations.

Set Implicit Arguments.

(** ** JavaScript strings *)

Module Js.

(** A string is the list of its UTF-16 code units. *)
Definition jschar := N.
Definition jsstring := list jschar.

(** String literals of the source are ASCII; [str] reads one. *)
Definition str (s : string) : jsstring :=
  map N_of_ascii (list_ascii_of_string s).

Definition nl : jschar := 10%N.

Fixpoint eqs (a b : jsstring) : bool :=
  match a, b with
  | [], [] => true
  | x :: a', y :: b' => N.eqb x y && eqs a' b'
  | _, _ => false
  end.

(** WhiteSpace and LineTerminator code units of ECMAScript: what [\s]
    matches and what [trim] strips. *)
Definition isSpace (c : jschar) : bool :=
  (((9 <=? c) && (c <=? 13)) || (c =? 32) || (c =? 160) || (c =? 5760)
   || ((8192 <=? c) && (c <=? 8202)) || (c =? 8232) || (c =? 8233)
   || (c =? 8239) || (c =? 8287) || (c =? 12288) || (c =? 65279))%N.

(** LineTerminator: what [.] refuses without the [s] flag. *)
Definition isLineTerminator (c : jschar) : bool :=
  ((c =? 10) || (c =? 13) || (c =? 8232) || (c =? 8233))%N.

(** [\w], for [\b]. *)
Definition isWord (c : jschar) : bool :=
  (((48 <=? c) && (c <=? 57)) || ((65 <=? c) && (c <=? 90))
   || ((97 <=? c) && (c <=? 122)) || (c =? 95))%N.

(** Case mapping on the ASCII letters. Every literal the two functions
    compare against is ASCII, and under the [i] flag (without [u]) a code
    unit above 127 never canonicalizes to one below 128, so on those literals
    this is the comparison JavaScript makes. *)
Definition upperChar (c : jschar) : jschar :=
  (if (97 <=? c) && (c <=? 122) then c - 32 else c)%N.
Definition lowerChar (c : jschar) : jschar :=
  (if (65 <=? c) && (c <=? 90) then c + 32 else c)%N.
Definition toUpperCase (s : jsstring) : jsstring := map upperChar s.
Definition toLowerCase (s : jsstring) : jsstring := map lowerChar s.

Fixpoint trimStart (s : jsstring) : jsstring :=
  match s with
  | c :: s' => if isSpace c then trimStart s' else s
  | [] => []
  end.
Definition trimEnd (s : jsstring) : jsstring := rev (trimStart (rev s)).
Definition trim (s : jsstring) : jsstring := trimEnd (trimStart s).

(** [s.split(c)] for a one-character separator: never the empty array. *)
Fixpoint splitOn (sep : jschar -> bool) (s : jsstring) : list jsstring :=
  match s with
  | [] => [[]]
  | c :: s' =>
      if sep c then [] :: splitOn sep s'
      else match splitOn sep s' with
           | l :: ls => (c :: l) :: ls
           | [] => [[c]]
           end
  end.
Definition split (c : jschar) : jsstring -> list jsstring :=
  splitOn (N.eqb c).

(** [a.join(sep)] *)
Fixpoint join (sep : jsstring) (l : list jsstring) : jsstring :=
  match l with
  | [] => []
  | [x] => x
  | x :: l' => x ++ sep ++ join sep l'
  end.

Fixpoint startsWith (p s : jsstring) : bool :=
  match p, s with
  | [], _ => true
  | x :: p', y :: s' => N.eqb x y && startsWith p' s'
  | _ :: _, [] => false
  end.

(** [s.includes(p)] *)
Fixpoint includes (p s : jsstring) : bool :=
  startsWith p s || match s with [] => false | _ :: s' => includes p s' end.

(** [a.includes(x)] on an array of strings *)
Definition arrayIncludes (x : jsstring) (a : list jsstring) : bool :=
  existsb (eqs x) a.

(** Truthiness of a string: the empty string is the only falsy one. *)
Definition truthy (s : jsstring) : bool :=
  match s with [] => false | _ => true end.

(** A number in a template literal: its decimal digits. *)
Definition numberToString (n : nat) : jsstring :=
  str (NilZero.string_of_uint (Nat.to_uint n)).

End Js.
Import Js.

(** ** Regular expressions

    The backtracking matcher of ECMAScript, for the constructs that occur in
    the two source files: literals, [\s], [.], bracket classes, sequence,
    ordered alternation, greedy and lazy [*] (so [+] and [?] as well),
    capture groups, positive lookahead, [^], [$] and [\b], under the flags
    [i] and [s]. No pattern of the source is compiled with [g], [m] or [u],
    and none puts a capture group under a quantifier. *)

Module Regex.

Record flags := { ignoreCase : bool; dotAll : bool }.

Inductive cset :=
| CChar (c : jschar)          (* a pattern character *)
| CSpace                      (* \s *)
| CAll                        (* [\s\S] *)
| CDot                        (* . *)
| COneOf (l : list jschar).   (* [...] *)

Inductive regex :=
| REmpty
| RSet (c : cset)
| RSeq (r1 r2 : regex)
| RAlt (r1 r2 : regex)
| RStar (greedy : bool) (r : regex)
| RGroup (n : nat) (r : regex)
| RLook (r : regex)           (* (?=r) *)
| RBol                        (* ^ *)
| REol                        (* $ *)
| RWordB.                     (* \b *)

(** Where the matcher stands: the code unit before it, the input still to
    read, and the index. *)
Record cursor := { prev : option jschar; rest : jsstring; pos : nat }.

Definition captures := list (nat * (nat * nat)).

Fixpoint capture (n : nat) (c : captures) : option (nat * nat) :=
  match c with
  | [] => None
  | (m, se) :: c' => if Nat.eqb n m then Some se else capture n c'
  end.

Definition canon (fl : flags) (c : jschar) : jschar :=
  if ignoreCase fl then upperChar c else c.

Definition inSet (fl : flags) (cs : cset) (c : jschar) : bool :=
  match cs with
  | CChar p => N.eqb (canon fl p) (canon fl c)
  | CSpace => isSpace c
  | CAll => true
  | CDot => dotAll fl || negb (isLineTerminator c)
  | COneOf l => existsb (fun p => N.eqb (canon fl p) (canon fl c)) l
  end.

Definition wordAt (o : option jschar) : bool :=
  match o with Some c => isWord c | None => false end.

Definition atBoundary (cur : cursor) : bool :=
  xorb (wordAt (prev cur)) (wordAt (hd_error (rest cur))).

Definition result := option (cursor * captures).
Definition cont := cursor -> captures -> result.

(** One more round of [r*]: [body] runs [r] once, and a round that read
    nothing is refused, as RepeatMatcher does. [fuel] bounds the rounds by
    the input left; every round reads at least one code unit. *)
Fixpoint repeatMatcher (greedy : bool) (body : cursor -> captures -> cont -> result)
    (k : cont) (fuel : nat) (cur : cursor) (caps : captures) : result :=
  match fuel with
  | 0 => k cur caps
  | S fuel' =>
      let again (_ : unit) :=
        body cur caps (fun cur' caps' =>
          if pos cur' <=? pos cur then None
          else repeatMatcher greedy body k fuel' cur' caps') in
      if greedy then
        match again tt with Some x => Some x | None => k cur caps end
      else
        match k cur caps with Some x => Some x | None => again tt end
  end.

Fixpoint rmatch (fl : flags) (r : regex) (cur : cursor) (caps : captures)
    (k : cont) : result :=
  match r with
  | REmpty => k cur caps
  | RSet cs =>
      match rest cur with
      | c :: s' =>
          if inSet fl cs c
          then k {| prev := Some c; rest := s'; pos := S (pos cur) |} caps
          else None
      | [] => None
      end
  | RSeq r1 r2 =>
      rmatch fl r1 cur caps (fun cur' caps' => rmatch fl r2 cur' caps' k)
  | RAlt r1 r2 =>
      match rmatch fl r1 cur caps k with
      | Some x => Some x
      | None => rmatch fl r2 cur caps k
      end
  | RStar greedy r' =>
      repeatMatcher greedy (rmatch fl r') k (S (List.length (rest cur))) cur caps
  | RGroup n r' =>
      rmatch fl r' cur caps (fun cur' caps' =>
        k cur' ((n, (pos cur, pos cur')) :: caps'))
  | RLook r' =>
      match rmatch fl r' cur caps (fun cur' caps' => Some (cur', caps')) with
      | Some (_, caps') => k cur caps'
      | None => None
      end
  | RBol => if pos cur =? 0 then k cur caps else None
  | REol => match rest cur with [] => k cur caps | _ => None end
  | RWordB => if atBoundary cur then k cur caps else None
  end.

(** A compiled pattern: its tree, its flags, and its source text (the code
    inspects [pattern.source] once). *)
Record RegExp := { tree : regex; flag : flags; source : jsstring }.

(** What [exec] gives back: where the match starts and ends, and the
    captures. *)
Record rmatched := { index : nat; lastIndex : nat; groups : captures }.

(** Leftmost match: the start index moves right until the pattern matches. *)
Fixpoint search (re : RegExp) (p : option jschar) (s : jsstring) (i : nat)
    : option rmatched :=
  match rmatch (flag re) (tree re) {| prev := p; rest := s; pos := i |} []
          (fun cur' caps' => Some (cur', caps')) with
  | Some (cur', caps') =>
      Some {| index := i; lastIndex := pos cur'; groups := caps' |}
  | None =>
      match s with
      | [] => None
      | c :: s' => search re (Some c) s' (S i)
      end
  end.

(** [s.match(re)] / [re.exec(s)], without the [g] flag. *)
Definition exec (re : RegExp) (s : jsstring) : option rmatched :=
  search re None s 0.

(** [re.test(s)] *)
Definition test (re : RegExp) (s : jsstring) : bool :=
  match exec re s with Some _ => true | None => false end.

Definition substring (s : jsstring) (i j : nat) : jsstring :=
  firstn (j - i) (skipn i s).

(** [m[0]] *)
Definition whole (s : jsstring) (m : rmatched) : jsstring :=
  substring s (index m) (lastIndex m).

(** [m[n]] for a group: [None] is [undefined]. *)
Definition group (s : jsstring) (m : rmatched) (n : nat) : option jsstring :=
  match capture n (groups m) with
  | Some (i, j) => Some (substring s i j)
  | None => None
  end.

(** [s.replace(re, '')]: the first match is cut out. *)
Definition remove (re : RegExp) (s : jsstring) : jsstring :=
  match exec re s with
  | Some m => firstn (index m) s ++ skipn (lastIndex m) s
  | None => s
  end.

(** Pattern syntax. *)
Definition lit (s : string) : regex :=
  fold_right (fun c r => RSeq (RSet (CChar c)) r) REmpty (str s).
Definition alt (l : list regex) : regex :=
  match l with
  | [] => REmpty
  | r :: l' => fold_left RAlt l' r
  end.
Definition seq (l : list regex) : regex := fold_right RSeq REmpty l.
Definition star (r : regex) : regex := RStar true r.
Definition plus (r : regex) : regex := RSeq r (RStar true r).
Definition lazyStar (r : regex) : regex := RStar false r.
Definition lazyPlus (r : regex) : regex := RSeq r (RStar false r).
Definition opt (r : regex) : regex := RAlt r REmpty.
Definition space : regex := RSet CSpace.
Definition newline : regex := RSet (CChar nl).

Definition flags_i : flags := {| ignoreCase := true; dotAll := false |}.
Definition flags_is : flags := {| ignoreCase := true; dotAll := true |}.

End Regex.
Import Regex.

(** ** Completions

    A JavaScript expression either yields a value or throws. The only throw
    the two functions can reach is the TypeError of a property read or a
    method call on [undefined] or on a value without the method. *)

Inductive completion (A : Type) :=
| Done (a : A)
| TypeError.
Arguments Done {A} a.
Arguments TypeError {A}.

Definition bind {A B} (c : completion A) (f : A -> completion B)
    : completion B :=
  match c with
  | Done a => f a
  | TypeError => TypeError
  end.

Notation "x <- c ;; k" := (bind c (fun x => k))
  (at level 61, c at next level, right associativity).

(** [m[n].trim()]: a TypeError when the group did not take part. *)
Definition groupTrim (s : jsstring) (m : rmatched) (n : nat)
    : completion jsstring :=
  match group s m n with
  | Some g => Done (trim g)
  | None => TypeError
  end.

(** ** The response classifier (aiCodes.ts) *)

Module AiCodes.

Inductive AICode :=
| SUCCESS | SCHEMA_MISMATCH | INVALID_REQUEST | COMPLEX_QUERY | NO_DATA
| UNSUPPORTED_OPERATION | NOT_SQL_REQUEST.

Definition AICode_eqb (a b : AICode) : bool :=
  match a, b with
  | SUCCESS, SUCCESS | SCHEMA_MISMATCH, SCHEMA_MISMATCH
  | INVALID_REQUEST, INVALID_REQUEST | COMPLEX_QUERY, COMPLEX_QUERY
  | NO_DATA, NO_DATA | UNSUPPORTED_OPERATION, UNSUPPORTED_OPERATION
  | NOT_SQL_REQUEST, NOT_SQL_REQUEST => true
  | _, _ => false
  end.

(** [sql] and [explanation] are optional: [None] is [undefined]. *)
Record AICodeResponse := {
  code : AICode;
  message : jsstring;
  sql : option jsstring;
  explanation : option jsstring
}.

Definition CODE_MESSAGES (c : AICode) : jsstring :=
  match c with
  | SUCCESS => str "SQL generated successfully! Review it before running."
  | SCHEMA_MISMATCH =>
      str "The requested query doesn't match your database schema. Please check your tables and columns."
  | INVALID_REQUEST =>
      str "Your request couldn't be understood. Please try rephrasing your question."
  | COMPLEX_QUERY =>
      str "This query is too complex or too long (exceeds 50 lines). Please break it into smaller parts or simplify your request."
  | NO_DATA => str "No data found matching your criteria."
  | UNSUPPORTED_OPERATION =>
      str "This operation is not supported. Only SELECT, INSERT, and UPDATE queries are allowed."
  | NOT_SQL_REQUEST =>
      str "This question is not about SQL operations. I can help you write SQL queries!"
  end.

Definition codeName (c : AICode) : string :=
  match c with
  | SUCCESS => "SUCCESS"
  | SCHEMA_MISMATCH => "SCHEMA_MISMATCH"
  | INVALID_REQUEST => "INVALID_REQUEST"
  | COMPLEX_QUERY => "COMPLEX_QUERY"
  | NO_DATA => "NO_DATA"
  | UNSUPPORTED_OPERATION => "UNSUPPORTED_OPERATION"
  | NOT_SQL_REQUEST => "NOT_SQL_REQUEST"
  end.

Definition allCodes : list AICode :=
  [SUCCESS; SCHEMA_MISMATCH; INVALID_REQUEST; COMPLEX_QUERY; NO_DATA;
   UNSUPPORTED_OPERATION; NOT_SQL_REQUEST].

(** The array literal of line 75 with [includes], and the cast
    [extractedCode as AICode]. *)
Definition knownCode (s : jsstring) : option AICode :=
  find (fun c => eqs s (str (codeName c))) allCodes.

(** [(SUCCESS|SCHEMA_MISMATCH|...|NOT_SQL_REQUEST)] *)
Definition codeNames : regex :=
  RGroup 1 (alt (map (fun c => lit (codeName c)) allCodes)).

Definition mk (t : regex) (f : flags) (src : string) : RegExp :=
  {| tree := t; flag := f; source := str src |}.

Definition codePatterns : list RegExp :=
  [ mk (seq [RBol; lit "CODE:"; star space; codeNames]) flags_i
      "^CODE:\s*(SUCCESS|SCHEMA_MISMATCH|INVALID_REQUEST|COMPLEX_QUERY|NO_DATA|UNSUPPORTED_OPERATION|NOT_SQL_REQUEST)";
    mk (seq [RBol; codeNames; lit ":"]) flags_i
      "^(SUCCESS|SCHEMA_MISMATCH|INVALID_REQUEST|COMPLEX_QUERY|NO_DATA|UNSUPPORTED_OPERATION|NOT_SQL_REQUEST):";
    mk (seq [lit "["; codeNames; lit "]"]) flags_i
      "\[(SUCCESS|SCHEMA_MISMATCH|INVALID_REQUEST|COMPLEX_QUERY|NO_DATA|UNSUPPORTED_OPERATION|NOT_SQL_REQUEST)\]";
    mk (seq [RBol; codeNames; star space; lit "-"]) flags_i
      "^(SUCCESS|SCHEMA_MISMATCH|INVALID_REQUEST|COMPLEX_QUERY|NO_DATA|UNSUPPORTED_OPERATION|NOT_SQL_REQUEST)\s*-" ].

(** [(.+?)(?:\n\n|$)], the tail of every explanation pattern. *)
Definition explanationBody : regex :=
  seq [RGroup 1 (lazyPlus (RSet CDot)); RAlt (seq [newline; newline]) REol].

Definition notSqlRequestPattern : RegExp :=
  mk (seq [RBol; lit "NOT_SQL_REQUEST"; star space; RAlt newline REol])
    flags_i "^NOT_SQL_REQUEST\s*(?:\n|$)".

Definition notSqlRequestWithExplanationPattern : RegExp :=
  mk (seq [RBol; lit "NOT_SQL_REQUEST"; star space; newline; star space;
           lit "EXPLANATION:"; star space; explanationBody])
    flags_is "^NOT_SQL_REQUEST\s*\n\s*EXPLANATION:\s*(.+?)(?:\n\n|$)".

Definition sqlBlockPattern : RegExp :=
  mk (seq [lit "```sql"; opt newline; RGroup 1 (lazyStar (RSet CAll));
           opt newline; lit "```"])
    flags_i "```sql\n?([\s\S]*?)\n?```".

Definition explanationPattern : RegExp :=
  mk (seq [lit "EXPLANATION:"; star space; explanationBody])
    flags_is "EXPLANATION:\s*(.+?)(?:\n\n|$)".

Definition sqlStatementPattern : RegExp :=
  mk (seq [lit "SQL_STATEMENT:"; star space; RGroup 1 (lazyStar (RSet CAll));
           RLook (RAlt (seq [newline; star space; lit "EXPLANATION:"]) REol)])
    flags_i "SQL_STATEMENT:\s*([\s\S]*?)(?=\n\s*EXPLANATION:|$)".

Definition explanationLine : RegExp :=
  mk (seq [RBol; lit "EXPLANATION:"]) flags_i "^EXPLANATION:".

Definition markerLine : RegExp :=
  mk (seq [RBol; RGroup 1 (alt [lit "CODE"; lit "SQL_STATEMENT"]); lit ":"])
    flags_i "^(CODE|SQL_STATEMENT):".

Definition notSqlRequestLine : RegExp :=
  mk (seq [RBol; lit "NOT_SQL_REQUEST"; star space; REol])
    flags_i "^NOT_SQL_REQUEST\s*$".

Definition nonSqlMarkerLine : RegExp :=
  mk (seq [RBol;
           RGroup 1 (alt [lit "CODE"; lit "RESPONSE"; lit "EXPLANATION";
                          lit "SQL_STATEMENT"]);
           lit ":"])
    flags_i "^(CODE|RESPONSE|EXPLANATION|SQL_STATEMENT):".

Definition sqlVerbLine : RegExp :=
  mk (seq [RBol;
           RGroup 1 (alt (map lit ["SELECT"; "INSERT"; "UPDATE"; "DELETE";
                                   "CREATE"; "ALTER"; "DROP"; "WITH";
                                   "TRUNCATE"]%string))])
    flags_i "^(SELECT|INSERT|UPDATE|DELETE|CREATE|ALTER|DROP|WITH|TRUNCATE)".

Definition notSqlExplanationPattern : RegExp :=
  mk (seq [lit "NOT_SQL_REQUEST"; star space; newline; star space;
           lit "EXPLANATION:"; star space; explanationBody])
    flags_is "NOT_SQL_REQUEST\s*\n\s*EXPLANATION:\s*(.+?)(?:\n\n|$)".

Definition colonOrBracket : regex := RSet (COneOf (str ":[")).

Definition markerPrefix : RegExp :=
  mk (seq [RBol;
           RGroup 1 (alt [lit "NOT_SQL_REQUEST"; lit "CODE";
                          lit "SQL_STATEMENT"]);
           colonOrBracket])
    flags_i "^(NOT_SQL_REQUEST|CODE|SQL_STATEMENT)[:\[]".

Definition notSqlRequestPrefix : RegExp :=
  mk (seq [RBol; lit "NOT_SQL_REQUEST"; star space; opt newline])
    flags_i "^NOT_SQL_REQUEST\s*\n?".

Definition sqlStatementNotSql : RegExp :=
  mk (seq [lit "SQL_STATEMENT:"; star space; lit "NOT_SQL_REQUEST";
           star space; opt newline])
    flags_i "SQL_STATEMENT:\s*NOT_SQL_REQUEST\s*\n?".

Definition codePrefix : RegExp :=
  mk (seq [RBol; codeNames; colonOrBracket]) flags_i
    "^(SUCCESS|SCHEMA_MISMATCH|INVALID_REQUEST|COMPLEX_QUERY|NO_DATA|UNSUPPORTED_OPERATION|NOT_SQL_REQUEST)[:\[]".

(** The four variables [parseAIResponse] assigns as it goes. *)
Record locals := {
  l_code : AICode;
  l_message : jsstring;
  l_sql : jsstring;
  l_explanation : jsstring
}.

Definition setCode (c : AICode) (st : locals) : locals :=
  {| l_code := c; l_message := l_message st; l_sql := l_sql st;
     l_explanation := l_explanation st |}.
Definition setMessage (m : jsstring) (st : locals) : locals :=
  {| l_code := l_code st; l_message := m; l_sql := l_sql st;
     l_explanation := l_explanation st |}.
Definition setSql (s : jsstring) (st : locals) : locals :=
  {| l_code := l_code st; l_message := l_message st; l_sql := s;
     l_explanation := l_explanation st |}.
Definition setExplanation (e : jsstring) (st : locals) : locals :=
  {| l_code := l_code st; l_message := l_message st; l_sql := l_sql st;
     l_explanation := e |}.

(** Lines 57-60. *)
Definition initial : locals :=
  {| l_code := SUCCESS; l_message := CODE_MESSAGES SUCCESS; l_sql := [];
     l_explanation := [] |}.

(** Lines 63-81: the first pattern that matches with a known code wins. *)
Fixpoint detectCode (patterns : list RegExp) (trimmedResponse : jsstring)
    (st : locals) : locals :=
  match patterns with
  | [] => st
  | pattern :: patterns' =>
      match exec pattern trimmedResponse with
      | Some m =>
          let extractedCode :=
            if includes (str "^CODE:") (source pattern) then
              (* match[1]?.toUpperCase() || '' *)
              match group trimmedResponse m 1 with
              | Some g => toUpperCase g
              | None => []
              end
            else
              (* (match[1] || match[0].split(/[:\[]/)[0]).toUpperCase() *)
              let fromWhole :=
                hd [] (splitOn (inSet flags_i (COneOf (str ":[")))
                               (whole trimmedResponse m)) in
              toUpperCase
                match group trimmedResponse m 1 with
                | Some g => if truthy g then g else fromWhole
                | None => fromWhole
                end in
          match knownCode extractedCode with
          | Some c =>
              let message := CODE_MESSAGES c in
              setMessage (if truthy message then message
                          else CODE_MESSAGES SUCCESS)
                         (setCode c st)
          | None => detectCode patterns' trimmedResponse st
          end
      | None => detectCode patterns' trimmedResponse st
      end
  end.

(** Lines 98-100 (again 126-128, 165-167, 191-193). *)
Definition becomeNotSqlRequest (st : locals) : locals :=
  setSql [] (setMessage (CODE_MESSAGES NOT_SQL_REQUEST)
                        (setCode NOT_SQL_REQUEST st)).

(** Lines 97-108, repeated at 125-136 and 190-201: what is done with a
    candidate SQL text. *)
Definition takeSql (extractedSql : jsstring) (st : locals)
    : completion locals :=
  if test notSqlRequestPattern extractedSql
     || test notSqlRequestWithExplanationPattern extractedSql then
    let st := becomeNotSqlRequest st in
    match exec explanationPattern extractedSql with
    | Some explanationInSql =>
        if negb (truthy (l_explanation st)) then
          e <- groupTrim extractedSql explanationInSql 1 ;;
          Done (setExplanation e st)
        else Done st
    | None => Done st
    end
  else Done (setSql extractedSql st).

(** Lines 145-180: the loop over the lines. It gives back the variables
    and [sqlLines]; [foundExplanation] is written and never read. *)
Fixpoint scanLines (lines : list jsstring) (st : locals) (sqlStart : bool)
    (sqlLines : list jsstring) : locals * list jsstring :=
  match lines with
  | [] => (st, sqlLines)
  | line :: lines' =>
      if test explanationLine line then (st, sqlLines)
      else if test markerLine line then scanLines lines' st sqlStart sqlLines
      else if AICode_eqb (l_code st) NOT_SQL_REQUEST then (st, sqlLines)
      else if test notSqlRequestLine line then
        (becomeNotSqlRequest st, sqlLines)
      else if sqlStart then
        if truthy (trim line) && negb (test nonSqlMarkerLine line)
        then scanLines lines' st sqlStart (sqlLines ++ [line])
        else scanLines lines' st sqlStart sqlLines
      else if test sqlVerbLine line then
        scanLines lines' st true (sqlLines ++ [line])
      else scanLines lines' st sqlStart sqlLines
  end.

(** Lines 88-206. *)
Definition extractSql (trimmedResponse : jsstring) (st : locals)
    : completion locals :=
  if AICode_eqb (l_code st) NOT_SQL_REQUEST then Done (setSql [] st)
  else
    match exec sqlBlockPattern trimmedResponse with
    | Some sqlBlockMatch =>
        extractedSql <- groupTrim trimmedResponse sqlBlockMatch 1 ;;
        takeSql extractedSql st
    | None =>
        match exec sqlStatementPattern trimmedResponse with
        | Some sqlStatementMatch =>
            extractedSql <- groupTrim trimmedResponse sqlStatementMatch 1 ;;
            let isNotSqlRequest := AICode_eqb (l_code st) NOT_SQL_REQUEST in
            if isNotSqlRequest then Done (setSql [] st)
            else if negb (truthy extractedSql)
                    || (List.length extractedSql =? 0)
            then Done (setSql [] st)
            else takeSql extractedSql st
        | None =>
            let lines := split nl trimmedResponse in
            let '(st, sqlLines) := scanLines lines st false [] in
            if 0 <? List.length sqlLines then
              let extractedSql := trim (join [nl] sqlLines) in
              if AICode_eqb (l_code st) NOT_SQL_REQUEST
              then Done (setSql [] st)
              else takeSql extractedSql st
            else Done st
        end
    end.

(** Lines 208-212. *)
Definition extractExplanation (trimmedResponse : jsstring) (st : locals)
    : completion locals :=
  match exec explanationPattern trimmedResponse with
  | Some explanationMatch =>
      e <- groupTrim trimmedResponse explanationMatch 1 ;;
      Done (setExplanation e st)
  | None => Done st
  end.

(** Lines 214-235. *)
Definition notSqlRequestPass (response : jsstring) (st : locals)
    : completion locals :=
  if AICode_eqb (l_code st) NOT_SQL_REQUEST then
    let st := setSql [] st in
    if negb (truthy (l_explanation st)) && truthy (trim response) then
      match exec notSqlExplanationPattern response with
      | Some notSqlExplanationMatch =>
          e <- groupTrim response notSqlExplanationMatch 1 ;;
          Done (setExplanation e st)
      | None =>
          let cleaned :=
            trim (remove sqlStatementNotSql
                   (remove notSqlRequestPrefix
                     (remove markerPrefix response))) in
          if truthy cleaned && (10 <? List.length cleaned)
          then Done (setExplanation cleaned st)
          else Done st
      end
    else Done st
  else Done st.

(** [sql.split('\n').filter(line => line.trim().length > 0)] *)
Definition nonBlankLines (sql : jsstring) : list jsstring :=
  filter (fun line => 0 <? List.length (trim line)) (split nl sql).

(** The template literal of lines 245 and 269. *)
Definition tooLongExplanation (n : nat) : jsstring :=
  str "The generated SQL query is " ++ numberToString n
  ++ str " lines long, which exceeds the maximum limit of 50 lines. Please break your request into smaller, simpler queries.".

(** Lines 237-248, and again 261-272. *)
Definition checkLineCount (st : locals) : locals :=
  if truthy (l_sql st) && AICode_eqb (l_code st) SUCCESS then
    let sqlLines := nonBlankLines (l_sql st) in
    if 50 <? List.length sqlLines then
      let st := setSql [] (setMessage (CODE_MESSAGES COMPLEX_QUERY)
                                      (setCode COMPLEX_QUERY st)) in
      if negb (truthy (l_explanation st))
      then setExplanation (tooLongExplanation (List.length sqlLines)) st
      else st
    else st
  else st.

(** Lines 250-259. *)
Definition fallbackSql (response : jsstring) (st : locals) : locals :=
  if negb (truthy (l_sql st)) && truthy (trim response)
     && negb (AICode_eqb (l_code st) NOT_SQL_REQUEST) then
    let cleaned := trim (remove codePrefix response) in
    if truthy cleaned && (10 <? List.length cleaned)
    then setSql cleaned st
    else st
  else st.

(** [x || undefined] *)
Definition orUndefined (s : jsstring) : option jsstring :=
  if truthy s then Some s else None.

(** Lines 274-279. *)
Definition respond (st : locals) : AICodeResponse :=
  {| code := l_code st;
     message := l_message st;
     sql := if AICode_eqb (l_code st) NOT_SQL_REQUEST
               || AICode_eqb (l_code st) COMPLEX_QUERY
            then Some []
            else orUndefined (l_sql st);
     explanation := orUndefined (l_explanation st) |}.

(** The variables as they stand at line 236, before the first line count. *)
Definition extracted (response : jsstring) : completion locals :=
  let trimmedResponse := trim response in
  let st := detectCode codePatterns trimmedResponse initial in
  st <- extractSql trimmedResponse st ;;
  st <- extractExplanation trimmedResponse st ;;
  notSqlRequestPass response st.

Definition parseAIResponse (response : jsstring)
    : completion AICodeResponse :=
  st <- extracted response ;;
  let st := checkLineCount st in
  let st := fallbackSql response st in
  let st := checkLineCount st in
  Done (respond st).

(** [getCodeMessage] *)
Definition getCodeMessage (c : AICode) : jsstring := CODE_MESSAGES c.

End AiCodes.
Import AiCodes.

(** ** JavaScript values

    The syntax trees [node-sql-parser] hands back are plain data: objects,
    arrays, strings, numbers, booleans, [null]. [validateSql] walks them
    with [in], property reads, [typeof], [Array.isArray] and [String]. *)

Module Value.

#[warnings="-register-all"]
Inductive jsval :=
| JUndefined
| JNull
| JBool (b : bool)
| JNum (n : Z)                       (* the integers; a tree has no other *)
| JStr (s : jsstring)
| JArr (items : list jsval)
| JObj (props : list (jsstring * jsval)).

Fixpoint lookup (k : jsstring) (props : list (jsstring * jsval))
    : option jsval :=
  match props with
  | [] => None
  | (k', v) :: props' => if eqs k k' then Some v else lookup k props'
  end.

(** [k in v], for [v] an object or an array and [k] not an index. *)
Definition has (k : string) (v : jsval) : bool :=
  match v with
  | JObj props =>
      match lookup (str k) props with Some _ => true | None => false end
  | _ => false
  end.

(** [v.k], for [k] not a built-in property. *)
Definition get (k : string) (v : jsval) : jsval :=
  match v with
  | JObj props =>
      match lookup (str k) props with Some x => x | None => JUndefined end
  | _ => JUndefined
  end.

Definition truthyVal (v : jsval) : bool :=
  match v with
  | JUndefined | JNull => false
  | JBool b => b
  | JNum n => negb (Z.eqb n 0)
  | JStr s => truthy s
  | JArr _ | JObj _ => true
  end.

(** [typeof v === 'object'] *)
Definition isObjectType (v : jsval) : bool :=
  match v with
  | JNull | JArr _ | JObj _ => true
  | _ => false
  end.

(** [Array.isArray(v) ? v : [v]] *)
Definition asArray (v : jsval) : list jsval :=
  match v with
  | JArr items => items
  | _ => [v]
  end.

(** [String(v)] *)
Fixpoint toString (v : jsval) : jsstring :=
  match v with
  | JUndefined => str "undefined"
  | JNull => str "null"
  | JBool true => str "true"
  | JBool false => str "false"
  | JNum n => str (NilZero.string_of_int (Z.to_int n))
  | JStr s => s
  | JArr items =>
      let item x :=
        match x with
        | JUndefined | JNull => []
        | _ => toString x
        end in
      (fix elements (l : list jsval) : jsstring :=
         match l with
         | [] => []
         | [x] => item x
         | x :: l' => item x ++ str "," ++ elements l'
         end) items
  | JObj _ => str "[object Object]"
  end.

Definition obj (props : list (string * jsval)) : jsval :=
  JObj (map (fun '(k, v) => (str k, v)) props).

End Value.
Import Value.

(** ** The SQL safety gate (validation.ts) *)

Module Validation.

(** Field names are those of the code: [statements] and [error]. *)
Inductive ValidationResult :=
| Ok (statements : jsval)
| Rejected (error : jsstring).

Definition ALLOWED_TYPES : list jsstring :=
  map str ["select"; "insert"; "update"; "delete"; "create"; "drop"; "alter";
           "truncate"; "with"]%string.

Record blocked := { pattern : RegExp; name : jsstring }.

Definition block (t : regex) (src nm : string) : blocked :=
  {| pattern := mk t flags_i src; name := str nm |}.

Definition BLOCKED_PATTERNS : list blocked :=
  [ block (seq [RWordB; lit "copy"; plus space; lit "from"; RWordB])
      "\bcopy\s+from\b" "COPY FROM";
    block (seq [RWordB; lit "copy"; plus space; lit "to"; RWordB])
      "\bcopy\s+to\b" "COPY TO";
    block (lit "\copy") "\\copy" "\COPY";
    block (seq [RWordB; lit "create"; plus space; lit "extension"; RWordB])
      "\bcreate\s+extension\b" "CREATE EXTENSION";
    block (seq [RWordB; lit "grant"; plus space]) "\bgrant\s+" "GRANT";
    block (seq [RWordB; lit "revoke"; plus space]) "\brevoke\s+" "REVOKE";
    block (seq [RWordB; lit "create"; plus space; lit "user"; RWordB])
      "\bcreate\s+user\b" "CREATE USER";
    block (seq [RWordB; lit "create"; plus space; lit "role"; RWordB])
      "\bcreate\s+role\b" "CREATE ROLE";
    block (seq [RWordB; lit "drop"; plus space; lit "user"; RWordB])
      "\bdrop\s+user\b" "DROP USER";
    block (seq [RWordB; lit "drop"; plus space; lit "role"; RWordB])
      "\bdrop\s+role\b" "DROP ROLE" ].

(** Lines 95-115: the names under [from]. *)
Definition fromItemTables (fromItem : jsval) : list jsstring :=
  if truthyVal fromItem && isObjectType fromItem then
    (if has "table" fromItem && truthyVal (get "table" fromItem) then
       let table := get "table" fromItem in
       let tableName : option jsstring :=
         match table with
         | JStr s => Some s
         | _ =>
             if isObjectType table
                && negb (match table with JNull => true | _ => false end)
                && has "table" table
             then Some (toString (get "table" table))
             else None
         end in
       match tableName with
       | Some s => if truthy s then [s] else []
       | None => []
       end
     else [])
    ++
    (let expr := get "expr" fromItem in
     if has "expr" fromItem && truthyVal expr && isObjectType expr then
       if has "table" expr && truthyVal (get "table" expr)
       then [toString (get "table" expr)]
       else []
     else [])
  else [].

(** Lines 118-127: the names under [table]. *)
Definition tableItemTables (tableItem : jsval) : list jsstring :=
  if truthyVal tableItem && isObjectType tableItem then
    if has "table" tableItem && truthyVal (get "table" tableItem)
    then [toString (get "table" tableItem)]
    else []
  else [].

(** ['from' in node] throws on a value that is not an object. *)
Definition extractTableNames (node : jsval) : completion (list jsstring) :=
  match node with
  | JObj _ | JArr _ =>
      Done
        ((if has "from" node && truthyVal (get "from" node)
          then flat_map fromItemTables (asArray (get "from" node))
          else [])
         ++
         (if has "table" node && truthyVal (get "table" node)
          then flat_map tableItemTables (asArray (get "table" node))
          else []))
  | _ => TypeError
  end.

(** [(node.type || '').toLowerCase()]: a TypeError on [null] and
    [undefined], and on a truthy [type] that is not a string. *)
Definition statementType (node : jsval) : completion jsstring :=
  match node with
  | JUndefined | JNull => TypeError
  | _ =>
      let t := get "type" node in
      if truthyVal t then
        match t with
        | JStr s => Done (toLowerCase s)
        | _ => TypeError
        end
      else Done (toLowerCase [])
  end.

Definition typeError (type : jsstring) : jsstring :=
  str "Statement type '" ++ type ++ str "' is not supported. Supported types: "
  ++ toUpperCase (join (str ", ") ALLOWED_TYPES) ++ str ".".

Definition blockedError (nm : jsstring) : jsstring :=
  str "Operation '" ++ nm
  ++ str "' is not allowed in PGlite (browser environment).".

Definition tableError (table : jsstring) (allowedTables : list jsstring)
    : jsstring :=
  str "Table '" ++ table ++ str "' is not allowed. Allowed tables: "
  ++ join (str ", ") allowedTables.

(** Lines 182-213, the body of the loop: [Some] is the error returned. *)
Definition validateNode (sql : jsstring)
    (allowedTables : option (list jsstring)) (node : jsval)
    : completion (option jsstring) :=
  type <- statementType node ;;
  if negb (arrayIncludes type ALLOWED_TYPES) then
    Done (Some (typeError type))
  else
    match find (fun b => test (pattern b) sql) BLOCKED_PATTERNS with
    | Some b => Done (Some (blockedError (name b)))
    | None =>
        match allowedTables with
        | Some allowed =>
            if 0 <? List.length allowed then
              tablesFound <- extractTableNames node ;;
              match find (fun table => negb (arrayIncludes table allowed))
                         tablesFound with
              | Some table => Done (Some (tableError table allowed))
              | None => Done None
              end
            else Done None
        | None => Done None
        end
    end.

(** Lines 181-214: the first error ends the loop. *)
Fixpoint validateNodes (sql : jsstring)
    (allowedTables : option (list jsstring)) (nodes : list jsval)
    : completion (option jsstring) :=
  match nodes with
  | [] => Done None
  | node :: nodes' =>
      r <- validateNode sql allowedTables node ;;
      match r with
      | Some e => Done (Some e)
      | None => validateNodes sql allowedTables nodes'
      end
  end.

(** Lines 168-178: one level of nesting is flattened. *)
Definition flatten (ast : jsval) : list jsval :=
  flat_map (fun a => match a with JArr l => l | _ => [a] end) (asArray ast).

(** Lines 149-152. *)
Definition fragments (sql : jsstring) : list jsstring :=
  filter truthy (map trim (split 59%N sql)).

Section Parser.

(** [parser.astify] of node-sql-parser: a tree, or an exception, given here
    by its message. *)
Variable astify : jsstring -> jsval + jsstring.

(** [parseSqlToAst] *)
Definition parseSqlToAst (sql : jsstring) : jsval + jsstring :=
  match astify sql with
  | inl ast => inl ast
  | inr msg => inr (str "SQL parse error: " ++ msg)
  end.

Definition validateSql (sql : jsstring)
    (allowedTables : option (list jsstring)) : completion ValidationResult :=
  if negb (truthy sql) then Done (Rejected (str "Empty SQL"))
  else if List.length (fragments sql) =? 0 then
    Done (Rejected (str "Empty SQL"))
  else
    match parseSqlToAst sql with
    | inr msg => Done (Rejected msg)
    | inl ast =>
        r <- validateNodes sql allowedTables (flatten ast) ;;
        match r with
        | Some e => Done (Rejected e)
        | None => Done (Ok ast)
        end
    end.

End Parser.

End Validation.
Import Validation.

(** ** Vocabulary of the proofs *)

(** A group that lies on every path through the pattern: a successful match
    always sets it. *)
Fixpoint setsGroup (n : nat) (r : regex) : bool :=
  match r with
  | RGroup m r' => Nat.eqb n m || setsGroup n r'
  | RSeq r1 r2 => setsGroup n r1 || setsGroup n r2
  | RAlt r1 r2 => setsGroup n r1 && setsGroup n r2
  | RLook r' => setsGroup n r'
  | _ => false
  end.

Definition captured (n : nat) (caps : captures) : Prop :=
  capture n caps <> None.

(** What a matcher step guarantees when it succeeds: it called its
    continuation at some point, and there group [n] was set ([must]) or at
    least not lost. *)
Definition passes (n : nat) (must : bool)
    (step : cursor -> captures -> cont -> result) : Prop :=
  forall cur caps k res,
    step cur caps k = Some res ->
    exists cur' caps',
      k cur' caps' = Some res
      /\ (captured n caps -> captured n caps')
      /\ (must = true -> captured n caps').

(** A cursor into an input of [total] code units. *)
Definition inInput (total : nat) (cur : cursor) : Prop :=
  pos cur + List.length (rest cur) = total.

(** Two continuations that agree from [cur] on. *)
Definition agreeFrom (total : nat) (cur : cursor) (k1 k2 : cont) : Prop :=
  forall cur' caps',
    inInput total cur' -> pos cur <= pos cur' ->
    k1 cur' caps' = k2 cur' caps'.

(** A step that looks at its continuation only from [cur] on. *)
Definition local (total : nat)
    (step : cursor -> captures -> cont -> result) : Prop :=
  forall cur caps k1 k2,
    inInput total cur -> agreeFrom total cur k1 k2 ->
    step cur caps k1 = step cur caps k2.


(** The [sql] field is empty: [undefined] or the empty string. *)
Definition emptySql (r : AICodeResponse) : Prop :=
  sql r = None \/ sql r = Some [].

(** The three checks a statement passes when the loop goes on. *)
Record passed (sql : jsstring) (allowedTables : option (list jsstring))
    (node : jsval) : Prop := {
  passed_type :
    exists type, statementType node = Done type /\ In type ALLOWED_TYPES;
  passed_patterns :
    forall b, In b BLOCKED_PATTERNS -> test (pattern b) sql = false;
  passed_tables :
    forall allowed, allowedTables = Some allowed -> allowed <> [] ->
      exists tablesFound,
        extractTableNames node = Done tablesFound
        /\ forall table, In table tablesFound -> In table allowed
}.

(** The statement's kind is on the allow-list. *)
Definition allowedKind (node : jsval) : Prop :=
  exists type, statementType node = Done type /\ In type ALLOWED_TYPES.

(** No blocked pattern matches the text. *)
Definition unblocked (sql : jsstring) : Prop :=
  forall b, In b BLOCKED_PATTERNS -> test (pattern b) sql = false.

(** Every table a statement references is on the list. *)
Definition tablesWithin (allowed : list jsstring) (node : jsval) : Prop :=
  exists tablesFound,
    extractTableNames node = Done tablesFound
    /\ forall table, In table tablesFound -> In table allowed.

(** The statement references [table], which is not on the list. *)
Definition offends (allowed : list jsstring) (table : jsstring)
    (node : jsval) : Prop :=
  exists tablesFound,
    extractTableNames node = Done tablesFound
    /\ In table tablesFound /\ ~ In table allowed.

(** The matcher on textbook cases: [m[0]] and the groups asked for. *)
Definition matched (t : regex) (fl : flags) (ns : list nat) (s : string)
    : option (nat * jsstring * list (option jsstring)) :=
  let re := {| tree := t; flag := fl; source := [] |} in
  match exec re (str s) with
  | Some m => Some (index m, whole (str s) m, map (group (str s) m) ns)
  | None => None
  end.

Definition flags_none : flags := {| ignoreCase := false; dotAll := false |}.

(** ** Sample responses *)

Definition lines (l : list string) : jsstring := join [nl] (map str l).

(** ["SCHEMA_MISMATCH: the table 'invoices' does not exist\n\nEXPLANATION: No invoices table in this schema."] *)
Definition schemaMismatchReply : jsstring :=
  lines ["SCHEMA_MISMATCH: the table 'invoices' does not exist"; EmptyString;
         "EXPLANATION: No invoices table in this schema."]%string.

(** A schema mismatch that still carries a fenced statement. *)
Definition mismatchWithBlock : jsstring :=
  lines ["CODE:SCHEMA_MISMATCH"; "```sql"; "SELECT 1;"; "```"]%string.

(** [CODE:SUCCESS], a blank line, then [n] lines of SQL. *)
Definition successWithLines (n : nat) : jsstring :=
  lines ("CODE:SUCCESS" :: EmptyString :: List.repeat "SELECT 1" n)%string.

(** The marker sits in the SQL field, no code marker in front. *)
Definition notSqlInSqlField : jsstring :=
  lines ["SQL_STATEMENT: NOT_SQL_REQUEST";
         "EXPLANATION: I can only help with SQL."]%string.

(** ** Sample statements

    The trees are shaped as node-sql-parser shapes them: a statement is an
    object with a [type], a select lists its tables under [from], one object
    for each with the name under [table]. *)

Definition studentsQuery : jsstring := str "SELECT * FROM students".

Definition joinQuery : jsstring :=
  str "SELECT * FROM students s JOIN unauthorized o ON s.id=o.student_id".

Definition dropRoleBatch : jsstring := str "SELECT * FROM a; DROP ROLE x;".

Definition tableRef (table : string) (alias : jsval) : list (string * jsval) :=
  [("db", JNull); ("table", JStr (str table)); ("as", alias)]%string.

Definition columnRef (table column : string) : jsval :=
  obj [("type", JStr (str "column_ref")); ("table", JStr (str table));
       ("column", JStr (str column))]%string.

Definition selectFrom (from : list jsval) : jsval :=
  obj [("type", JStr (str "select")); ("columns", JStr (str "*"));
       ("from", JArr from); ("where", JNull)]%string.

Definition studentsAst : jsval := selectFrom [obj (tableRef "students" JNull)].

Definition joinAst : jsval :=
  selectFrom
    [obj (tableRef "students" (JStr (str "s")));
     obj (List.app (tableRef "unauthorized" (JStr (str "o")))
            [("join", JStr (str "INNER JOIN"));
             ("on", obj [("type", JStr (str "binary_expr"));
                         ("operator", JStr (str "="));
                         ("left", columnRef "s" "id");
                         ("right", columnRef "o" "student_id")])])]%string.

(** A select whose string literal holds the word [grant]. *)
Definition grantLiteralQuery : jsstring :=
  str "SELECT * FROM students WHERE name = 'grant x'".

Definition grantLiteralAst : jsval :=
  obj [("type", JStr (str "select")); ("columns", JStr (str "*"));
       ("from", JArr [obj (tableRef "students" JNull)]);
       ("where",
        obj [("type", JStr (str "binary_expr")); ("operator", JStr (str "="));
             ("left", obj [("type", JStr (str "column_ref"));
                           ("table", JNull);
                           ("column", JStr (str "name"))]);
             ("right", obj [("type", JStr (str "single_quote_string"));
                            ("value", JStr (str "grant x"))])])]%string.

(** A parser that knows the sample selects and throws on the rest, as
    node-sql-parser throws on [DROP ROLE]. *)
Definition sampleAstify (sql : jsstring) : jsval + jsstring :=
  if eqs sql studentsQuery then inl studentsAst
  else if eqs sql joinQuery then inl joinAst
  else if eqs sql grantLiteralQuery then inl grantLiteralAst
  else inr (str "Unexpected input").

(** A parser that finds no statement in a text. *)
Definition emptyTreeAstify (sql : jsstring) : jsval + jsstring :=
  inl (JArr []).

(** ** The API envelope (lib/response.ts) *)

Module Response.

(** [error.code] and [error.details] are present only when truthy. *)
Record ApiError := {
  message : jsstring;
  code : option jsstring;
  details : option jsval
}.

Inductive ApiResponse (T : Type) :=
| Success (data : T)               (* success: true, error: null *)
| Failure (error : ApiError).      (* success: false, data: null *)
Arguments Success {T} data.
Arguments Failure {T} error.

Definition successResponse {T} (data : T) : ApiResponse T := Success data.

(** [...(code && { code })] and [...(details && { details })] *)
Definition errorResponse {T} (message : jsstring) (code : option jsstring)
    (details : option jsval) : ApiResponse T :=
  Failure
    {| message := message;
       code := match code with
               | Some c => if truthy c then Some c else None
               | None => None
               end;
       details := match details with
                  | Some d => if truthyVal d then Some d else None
                  | None => None
                  end |}.

End Response.

(** ** The two AI routes (the /ai/generate handler and routes/fixSql.ts)

    Both handlers end the same way: the model's reply is classified, the
    response data are built from the outcome, and the SQL is validated. What
    comes before (configuration, authentication, rate limit, the call to the
    model) is not part of this development. A throw in this part is caught
    by the handler and answered with status 500. *)

Module Routes.

(** [responseData]: every field optional, it starts as the empty object. *)
Module Data.
Record t := {
  code : option AICode;
  message : option jsstring;
  sql : option jsstring;
  explanation : option jsstring;
  validated : option bool
}.
End Data.

Definition emptyData : Data.t :=
  {| Data.code := None; Data.message := None; Data.sql := None;
     Data.explanation := None; Data.validated := None |}.

(** [/^NOT_SQL_REQUEST\s*(?:\n|$)/i], written out again in both routes. *)
Definition sqlIsNotSqlRequest : RegExp :=
  mk (seq [RBol; lit "NOT_SQL_REQUEST"; star space; RAlt newline REol])
    flags_i "^NOT_SQL_REQUEST\s*(?:\n|$)".

(** [/EXPLANATION:\s*(.+?)(?:\n\n|$)/is] *)
Definition explanationInSql : RegExp :=
  mk (seq [lit "EXPLANATION:"; star space; explanationBody])
    flags_is "EXPLANATION:\s*(.+?)(?:\n\n|$)".

Definition truthyOpt (o : option jsstring) : bool :=
  match o with Some s => truthy s | None => false end.

(** [a || b] on optional strings *)
Definition orElse (a b : option jsstring) : option jsstring :=
  if truthyOpt a then a else b.

(** The object literal written three times: [sql] only for SUCCESS. *)
Definition dataOf (parsed : AICodeResponse) (sql : option jsstring)
    : Data.t :=
  {| Data.code := Some (code parsed);
     Data.message := Some (message parsed);
     Data.sql :=
       if AICode_eqb (code parsed) SUCCESS
       then Some (if truthyOpt sql then match sql with
                                        | Some s => s
                                        | None => []
                                        end
                  else [])
       else Some [];
     Data.explanation := explanation parsed;
     Data.validated := None |}.

(** /ai/generate lines 232-275, fixSql.ts lines 214-264: from
    [choices[0]?.message?.content] to [responseData] and the local [sql]. *)
Definition interpret (content : option jsstring)
    : completion (Data.t * option jsstring) :=
  if truthyOpt content then
    let aiContent := trim (match content with Some c => c | None => [] end) in
    parsed <- parseAIResponse aiContent ;;
    r <-
      (if AICode_eqb (code parsed) NOT_SQL_REQUEST then
         Done (emptyData, Some [])
       else
         let sql := AiCodes.sql parsed in
         if truthyOpt sql
            && test sqlIsNotSqlRequest
                 (match sql with Some s => s | None => [] end) then
           let text := match sql with Some s => s | None => [] end in
           extractedExplanation <-
             match exec explanationInSql text with
             | Some explanationMatch =>
                 e <- groupTrim text explanationMatch 1 ;; Done (Some e)
             | None => Done None
             end ;;
           Done ({| Data.code := Some NOT_SQL_REQUEST;
                    Data.message := Some (getCodeMessage NOT_SQL_REQUEST);
                    Data.sql := Some [];
                    Data.explanation :=
                      orElse (explanation parsed) extractedExplanation;
                    Data.validated := None |}, sql)
         else Done (dataOf parsed sql, sql)) ;;
    let '(responseData, sql) := r in
    (* if (!responseData.code) *)
    match Data.code responseData with
    | None => Done (dataOf parsed sql, sql)
    | Some _ => Done (responseData, sql)
    end
  else Done (emptyData, None).

Definition setValidated (d : Data.t) : Data.t :=
  {| Data.code := Data.code d; Data.message := Data.message d;
     Data.sql := Data.sql d; Data.explanation := Data.explanation d;
     Data.validated := Some true |}.

(** What [c.json] is given, and the status. *)
Definition reply : Type := Response.ApiResponse Data.t * nat.

Section Parser.

Variable astify : jsstring -> jsval + jsstring.

(** /ai/generate lines 278-302: [body.runSql === true && sql]. *)
Definition generateReply (runSql : option bool)
    (allowedTables : option (list jsstring)) (content : option jsstring)
    : completion reply :=
  r <- interpret content ;;
  let '(responseData, sql) := r in
  if match runSql with Some true => true | _ => false end && truthyOpt sql
  then
    let text := match sql with Some s => s | None => [] end in
    validation <- validateSql astify text allowedTables ;;
    match validation with
    | Rejected error =>
        Done (Response.errorResponse (str "Unsafe SQL generated")
                (Some (str "UNSAFE_SQL"))
                (Some (obj [("reason", JStr error); ("sql", JStr text)]%string)),
              400)
    | Ok _ => Done (Response.successResponse (setValidated responseData), 200)
    end
  else Done (Response.successResponse responseData, 200).

(** fixSql.ts lines 266-282: every non-empty [sql] is validated, without a
    table list. *)
Definition fixReply (content : option jsstring) : completion reply :=
  r <- interpret content ;;
  let '(responseData, sql) := r in
  if truthyOpt sql then
    let text := match sql with Some s => s | None => [] end in
    validation <- validateSql astify text None ;;
    match validation with
    | Rejected error =>
        Done (Response.errorResponse
                (str "Fixed SQL contains unsafe operations")
                (Some (str "UNSAFE_SQL"))
                (Some (obj [("reason", JStr error)]%string)),
              400)
    | Ok _ => Done (Response.successResponse (setValidated responseData), 200)
    end
  else Done (Response.successResponse responseData, 200).

End Parser.

End Routes.

(** ** Vocabulary of the further properties *)

(** The variables of [parseAIResponse] are in step: the message is the one
    of the code, and neither text has spaces around it. *)
Definition tidy (st : locals) : Prop :=
  l_message st = CODE_MESSAGES (l_code st)
  /\ trim (l_sql st) = l_sql st
  /\ trim (l_explanation st) = l_explanation st.

(** The code the markers give (lines 63-81), before any override. *)
Definition detected (response : jsstring) : AICode :=
  l_code (detectCode codePatterns (trim response) initial).

(** A code is kept or overridden by NOT_SQL_REQUEST. *)
Definition keptOrNotSql (before after : AICode) : Prop :=
  after = before \/ after = NOT_SQL_REQUEST.

(** The response starts, spaces aside, with [CODE:NAME] or with [NAME:]. *)
Definition startsWithMarker (c : AICode) (response : jsstring) : Prop :=
  exists rest,
    trim response = str ("CODE:" ++ codeName c) ++ rest
    \/ trim response = str (codeName c ++ ":") ++ rest.

(** A text of spaces, line breaks and semicolons only. *)
Definition blankSql (sql : jsstring) : Prop :=
  forallb (fun c => isSpace c || N.eqb 59 c) sql = true.

(** Every statement of the tree has a type that can be read: the statement
    is not [null] or [undefined], and its [type], when truthy, is a
    string. *)
Definition readableTypes (ast : jsval) : Prop :=
  Forall (fun node => exists type, statementType node = Done type)
         (flatten ast).

(** [item] is an object whose [table] is the non-empty string [name]. *)
Definition tableNamed (name : jsstring) (item : jsval) : Prop :=
  exists props,
    item = JObj props
    /\ lookup (str "table") props = Some (JStr name)
    /\ name <> [].

(** The same, and the object has no [expr]. *)
Definition plainFromItem (name : jsstring) (item : jsval) : Prop :=
  tableNamed name item
  /\ exists props, item = JObj props /\ lookup (str "expr") props = None.

(** A property that is absent and names nothing, or an array of items that
    name the tables [names], one each, in order. *)
Definition lists (named : jsstring -> jsval -> Prop)
    (property : option jsval) (names : list jsstring) : Prop :=
  (property = None /\ names = [])
  \/ exists items, property = Some (JArr items)
                   /\ Forall2 (fun item name => named name item) items names.

(** The pattern of [BLOCKED_PATTERNS] for the psql command. *)
Definition backslashCopy : RegExp := mk (lit "\copy") flags_i "\\copy".

(** The error [e] reported for [node] has its cause: a kind off the
    allow-list, a blocked pattern that matches the text, or a referenced
    table off the table list. *)
Definition justified (sql : jsstring)
    (allowedTables : option (list jsstring)) (node : jsval) (e : jsstring)
    : Prop :=
  (exists type, statementType node = Done type
                /\ ~ In type ALLOWED_TYPES /\ e = typeError type)
  \/ (exists b, In b BLOCKED_PATTERNS /\ test (pattern b) sql = true
                /\ e = blockedError (name b))
  \/ (exists allowed table,
        allowedTables = Some allowed /\ offends allowed table node
        /\ e = tableError table allowed).

(** * Lemmas *)

(** ** Strings and codes *)

Lemma eqs_spec (a b : jsstring) : eqs a b = true <-> a = b.
Proof.
  revert b; induction a as [|x a IH]; intros [|y b]; simpl; split;
    try congruence; try discriminate; auto.
  - rewrite andb_true_iff, N.eqb_eq, IH. intros [-> ->]; reflexivity.
  - intros H; injection H as -> ->.
    rewrite N.eqb_refl; simpl; apply IH; reflexivity.
Qed.

Lemma AICode_eqb_eq (a b : AICode) : AICode_eqb a b = true <-> a = b.
Proof. destruct a, b; simpl; split; congruence. Qed.

Example trim_ex : trim (str "  a b  ") = str "a b".
Proof. reflexivity. Qed.
Example split_ex : split 59%N (str "a;b;") = [str "a"; str "b"; []].
Proof. reflexivity. Qed.
Example num_ex : numberToString 51 = str "51" /\ numberToString 0 = str "0".
Proof. split; reflexivity. Qed.

(** The pattern (a|ab)(c|bcd)(d star) on [abcd]: the whole input, with the
    groups [a], [bcd] and the empty string. *)
Example backtracking_ex :
  matched (seq [RGroup 1 (RAlt (lit "a") (lit "ab"));
                RGroup 2 (RAlt (lit "c") (lit "bcd"));
                RGroup 3 (star (lit "d"))]) flags_none [1; 2; 3] "abcd"
  = Some (0, str "abcd", [Some (str "a"); Some (str "bcd"); Some []]).
Proof. vm_compute. reflexivity. Qed.

(** [/a|ab/] takes the first alternative; the lazy and the greedy star of
    [a] before [b] agree on [xaab]; a star of a group of a star before [b]
    fails on [aaa], and stops. *)
Example ordered_choice_ex :
  matched (RAlt (lit "a") (lit "ab")) flags_none [] "ab"
  = Some (0, str "a", [])
  /\ matched (seq [lazyStar (lit "a"); lit "b"]) flags_none [] "xaab"
     = Some (1, str "aab", [])
  /\ matched (seq [star (lit "a"); lit "b"]) flags_none [] "xaab"
     = Some (1, str "aab", [])
  /\ matched (seq [star (RGroup 1 (star (lit "a"))); lit "b"]) flags_none
       [] "aaa" = None.
Proof. vm_compute. repeat split. Qed.

(** [/\bcat\b/i]: not inside [concat], found in [con CAT.]; a group in
    an alternative not taken is [undefined]; [(?=...)] reads nothing. *)
Example boundary_ex :
  matched (seq [RWordB; lit "cat"; RWordB]) flags_i [] "concat" = None
  /\ matched (seq [RWordB; lit "cat"; RWordB]) flags_i [] "con CAT."
     = Some (4, str "CAT", [])
  /\ matched (RAlt (RGroup 1 (lit "a")) (RGroup 2 (lit "b"))) flags_none
       [1; 2] "b" = Some (0, str "b", [None; Some (str "b")])
  /\ matched (seq [lit "a"; RLook (lit "bc"); RGroup 1 (RSet CDot)])
       flags_none [1] "abd abc" = Some (4, str "ab", [Some (str "b")]).
Proof. vm_compute. repeat split. Qed.

(** [.] stops at a line break unless the [s] flag is set; [^] and [$] are
    the ends of the input. *)
Example dot_ex :
  matched (seq [lit "a"; plus (RSet CDot)]) flags_i [] "xA1
2" = Some (1, str "A1", [])
  /\ matched (seq [RBol; plus (RSet CDot); REol]) flags_i [] "a
b" = None
  /\ matched (seq [RBol; plus (RSet CDot); REol]) flags_is [] "a
b" = Some (0, lines ["a"; "b"]%string, []).
Proof. vm_compute. repeat split. Qed.

(** ** The bound on the rounds of a star is never reached

    [rmatch] starts a star with one more round than there are code units
    left. More rounds would change nothing: a round that reads nothing is
    refused, so the rounds run out of input first. *)

Section Fuel.

Variable total : nat.

Lemma repeatMatcher_local greedy body :
  local total body -> forall fuel, local total (fun cur caps k =>
    repeatMatcher greedy body k fuel cur caps).
Proof.
  intros Hbody fuel. induction fuel as [|fuel IH];
    intros cur caps k1 k2 Hin Hk; simpl.
  - apply Hk; auto.
  - assert (Hagain :
      body cur caps (fun cur' caps' =>
        if pos cur' <=? pos cur then None
        else repeatMatcher greedy body k1 fuel cur' caps')
      = body cur caps (fun cur' caps' =>
        if pos cur' <=? pos cur then None
        else repeatMatcher greedy body k2 fuel cur' caps')).
    { apply Hbody; [exact Hin|]. intros cur' caps' Hin' Hle.
      destruct (pos cur' <=? pos cur); [reflexivity|].
      apply IH; [exact Hin'|]. intros cur2 caps2 Hin2 Hle2.
      apply Hk; [exact Hin2 | lia]. }
    rewrite Hagain, (Hk cur caps Hin (Nat.le_refl _)). reflexivity.
Qed.

Lemma rmatch_local fl r : local total (rmatch fl r).
Proof.
  induction r as [ | cs | r1 IH1 r2 IH2 | r1 IH1 r2 IH2 | greedy r IH
                 | m r IH | r IH | | | ];
    intros cur caps k1 k2 Hin Hk.
  - simpl. apply Hk; auto.
  - simpl. destruct (rest cur) as [|c s'] eqn:Er; [reflexivity|].
    destruct (inSet fl cs c); [|reflexivity].
    apply Hk; simpl; [|lia].
    unfold inInput in *. rewrite Er in Hin. simpl in *. lia.
  - simpl. apply IH1; [exact Hin|]. intros cur1 caps1 Hin1 Hle1.
    apply IH2; [exact Hin1|]. intros cur2 caps2 Hin2 Hle2.
    apply Hk; [exact Hin2 | lia].
  - simpl. rewrite (IH1 cur caps k1 k2 Hin Hk), (IH2 cur caps k1 k2 Hin Hk).
    reflexivity.
  - change (rmatch fl (RStar greedy r) cur caps k1) with
      (repeatMatcher greedy (rmatch fl r) k1
         (S (List.length (rest cur))) cur caps).
    change (rmatch fl (RStar greedy r) cur caps k2) with
      (repeatMatcher greedy (rmatch fl r) k2
         (S (List.length (rest cur))) cur caps).
    apply (@repeatMatcher_local greedy (rmatch fl r) IH
             (S (List.length (rest cur)))); assumption.
  - simpl. apply IH; [exact Hin|]. intros cur1 caps1 Hin1 Hle1.
    apply Hk; assumption.
  - simpl. destruct (rmatch fl r cur caps _) as [[cur1 caps1]|];
      [|reflexivity].
    apply Hk; auto.
  - simpl. destruct (pos cur =? 0); [|reflexivity]. apply Hk; auto.
  - simpl. destruct (rest cur); [|reflexivity]. apply Hk; auto.
  - simpl. destruct (atBoundary cur); [|reflexivity]. apply Hk; auto.
Qed.

Lemma repeatMatcher_one_more greedy body k :
  local total body ->
  forall fuel cur caps,
    inInput total cur -> List.length (rest cur) < fuel ->
    repeatMatcher greedy body k (S fuel) cur caps
    = repeatMatcher greedy body k fuel cur caps.
Proof.
  intros Hbody. induction fuel as [|fuel IH]; intros cur caps Hin Hlt;
    [lia|].
  change (repeatMatcher greedy body k (S (S fuel)) cur caps) with
    (if greedy then
       match body cur caps (fun cur' caps' =>
               if pos cur' <=? pos cur then None
               else repeatMatcher greedy body k (S fuel) cur' caps') with
       | Some x => Some x
       | None => k cur caps
       end
     else
       match k cur caps with
       | Some x => Some x
       | None =>
           body cur caps (fun cur' caps' =>
             if pos cur' <=? pos cur then None
             else repeatMatcher greedy body k (S fuel) cur' caps')
       end).
  assert (Hagain :
    body cur caps (fun cur' caps' =>
      if pos cur' <=? pos cur then None
      else repeatMatcher greedy body k (S fuel) cur' caps')
    = body cur caps (fun cur' caps' =>
      if pos cur' <=? pos cur then None
      else repeatMatcher greedy body k fuel cur' caps')).
  { apply Hbody; [exact Hin|]. intros cur' caps' Hin' Hle.
    destruct (pos cur' <=? pos cur) eqn:E; [reflexivity|].
    apply Nat.leb_gt in E. apply IH; [exact Hin'|].
    unfold inInput in *. lia. }
  rewrite Hagain. reflexivity.
Qed.

End Fuel.

(** At a cursor into the input, a star with any larger bound gives what the
    star of [rmatch] gives. *)
Lemma star_fuel_enough fl greedy r k cur caps extra :
  repeatMatcher greedy (rmatch fl r) k
    (extra + S (List.length (rest cur))) cur caps
  = rmatch fl (RStar greedy r) cur caps k.
Proof.
  change (rmatch fl (RStar greedy r) cur caps k) with
    (repeatMatcher greedy (rmatch fl r) k
       (S (List.length (rest cur))) cur caps).
  induction extra as [|extra IH]; [reflexivity|].
  rewrite <- IH. simpl Nat.add.
  apply (@repeatMatcher_one_more (pos cur + List.length (rest cur)) greedy
           (rmatch fl r) k (@rmatch_local _ fl r)).
  - reflexivity.
  - lia.
Qed.

(** ** Capture groups of a successful match

    [groupTrim] throws when the group it reads did not take part in the
    match. [rmatch_sets_group] proves that a group [setsGroup] accepts
    always takes part. *)

Section Captured.

Variable n : nat.

Lemma captured_cons m se caps :
  captured n caps -> captured n ((m, se) :: caps).
Proof.
  unfold captured; simpl. destruct (Nat.eqb n m); [discriminate | auto].
Qed.

Lemma captured_here se caps : captured n ((n, se) :: caps).
Proof. unfold captured; simpl. rewrite Nat.eqb_refl. discriminate. Qed.

Lemma repeatMatcher_keeps greedy body k fuel :
  passes n false body ->
  forall cur caps res,
    repeatMatcher greedy body k fuel cur caps = Some res ->
    exists cur' caps',
      k cur' caps' = Some res /\ (captured n caps -> captured n caps').
Proof.
  intros Hbody. induction fuel as [|fuel IH]; intros cur caps res; simpl.
  - intros H. exists cur, caps. auto.
  - set (again := body cur caps _).
    assert (Hagain : again = Some res ->
      exists cur' caps',
        k cur' caps' = Some res /\ (captured n caps -> captured n caps')).
    { unfold again. intros H. apply Hbody in H.
      destruct H as (cur1 & caps1 & H & Hkeep & _).
      destruct (pos cur1 <=? pos cur); [discriminate|].
      apply IH in H. destruct H as (cur2 & caps2 & H & Hkeep2).
      exists cur2, caps2. auto. }
    destruct greedy.
    + destruct again as [x|] eqn:E.
      * intros H. apply Hagain. exact H.
      * intros H. exists cur, caps. auto.
    + destruct (k cur caps) as [x|] eqn:E.
      * intros H. exists cur, caps. rewrite E. auto.
      * exact Hagain.
Qed.

Lemma rmatch_sets_group fl r : passes n (setsGroup n r) (rmatch fl r).
Proof.
  induction r as [ | cs | r1 IH1 r2 IH2 | r1 IH1 r2 IH2 | greedy r IH
                 | m r IH | r IH | | | ];
    intros cur caps k res.
  - simpl. intros H. exists cur, caps. repeat split; auto; discriminate.
  - simpl. destruct (rest cur) as [|c s']; [discriminate|].
    destruct (inSet fl cs c); [|discriminate].
    intros H. eexists _, caps. repeat split; eauto; discriminate.
  - simpl. intros H. apply IH1 in H. destruct H as (cur1 & caps1 & H & K1 & M1).
    apply IH2 in H. destruct H as (cur2 & caps2 & H & K2 & M2).
    exists cur2, caps2. repeat split; auto.
    rewrite orb_true_iff. intros [E|E]; auto.
  - simpl. destruct (rmatch fl r1 cur caps k) as [x|] eqn:E.
    + intros H. rewrite <- E in H. apply IH1 in H.
      destruct H as (cur1 & caps1 & H & K1 & M1).
      exists cur1, caps1. repeat split; auto.
      rewrite andb_true_iff. intros [? ?]; auto.
    + intros H. apply IH2 in H.
      destruct H as (cur1 & caps1 & H & K1 & M1).
      exists cur1, caps1. repeat split; auto.
      rewrite andb_true_iff. intros [? ?]; auto.
  - change (rmatch fl (RStar greedy r) cur caps k) with
      (repeatMatcher greedy (rmatch fl r) k
         (S (List.length (rest cur))) cur caps).
    intros H. apply repeatMatcher_keeps in H.
    + destruct H as (cur1 & caps1 & H & K1).
      exists cur1, caps1. repeat split; auto; discriminate.
    + intros cur0 caps0 k0 res0 H0. apply IH in H0.
      destruct H0 as (cur1 & caps1 & H0 & K1 & _).
      exists cur1, caps1. repeat split; auto; discriminate.
  - simpl. intros H. apply IH in H. destruct H as (cur1 & caps1 & H & K1 & M1).
    eexists _, _. split; [exact H|]. split.
    + intros C. apply captured_cons; auto.
    + rewrite orb_true_iff. intros [E|E].
      * apply Nat.eqb_eq in E; subst m. apply captured_here.
      * apply captured_cons; auto.
  - simpl. destruct (rmatch fl r cur caps _) as [[cur1 caps1]|] eqn:E;
      [|discriminate].
    apply IH in E. destruct E as (cur2 & caps2 & E & K1 & M1).
    injection E as -> ->.
    intros H. exists cur, caps1. repeat split; auto.
  - simpl. destruct (pos cur =? 0); [|discriminate].
    intros H. exists cur, caps. repeat split; auto; discriminate.
  - simpl. destruct (rest cur); [|discriminate].
    intros H. exists cur, caps. repeat split; auto; discriminate.
  - simpl. destruct (atBoundary cur); [|discriminate].
    intros H. exists cur, caps. repeat split; auto; discriminate.
Qed.

Lemma search_sets_group re :
  setsGroup n (tree re) = true ->
  forall s p i m, search re p s i = Some m -> captured n (groups m).
Proof.
  intros Hsets s. induction s as [|c s IH]; intros p i m; simpl.
  - destruct (rmatch _ _ _ _ _) as [[cur1 caps1]|] eqn:E; [|discriminate].
    apply rmatch_sets_group in E. destruct E as (cur2 & caps2 & E & _ & M).
    injection E as -> ->. intros H; injection H as <-. simpl. auto.
  - destruct (rmatch _ _ _ _ _) as [[cur1 caps1]|] eqn:E.
    + apply rmatch_sets_group in E. destruct E as (cur2 & caps2 & E & _ & M).
      injection E as -> ->. intros H; injection H as <-. simpl. auto.
    + apply IH.
Qed.

End Captured.

(** Reading group [n] of a match of a pattern that always sets it does not
    throw. *)
Lemma groupTrim_done re n s m :
  setsGroup n (tree re) = true ->
  exec re s = Some m ->
  exists g, groupTrim s m n = Done g.
Proof.
  intros Hsets H. apply (search_sets_group n re Hsets) in H.
  unfold groupTrim, group. unfold captured in H.
  destruct (capture n (groups m)) as [[i j]|]; [|congruence].
  eexists; reflexivity.
Qed.

(** ** The classifier never throws *)

Section Total.

Ltac read_group H :=
  let g := fresh "g" in
  let E := fresh "E" in
  match type of H with
  | exec ?re ?s = Some ?m =>
      destruct (@groupTrim_done re 1 s m eq_refl H) as [g E];
      rewrite E; simpl
  end.

Lemma takeSql_done extractedSql st :
  exists st', takeSql extractedSql st = Done st'.
Proof.
  unfold takeSql.
  destruct (_ || _); [|eexists; reflexivity].
  destruct (exec explanationPattern extractedSql) as [m|] eqn:H;
    [|eexists; reflexivity].
  destruct (negb _); [|eexists; reflexivity].
  read_group H. eexists; reflexivity.
Qed.

Lemma extractSql_done trimmedResponse st :
  exists st', extractSql trimmedResponse st = Done st'.
Proof.
  unfold extractSql.
  destruct (AICode_eqb (l_code st) NOT_SQL_REQUEST);
    [eexists; reflexivity|].
  destruct (exec sqlBlockPattern trimmedResponse) as [m|] eqn:H.
  { read_group H. apply takeSql_done. }
  destruct (exec sqlStatementPattern trimmedResponse) as [m|] eqn:H'.
  { read_group H'. destruct (_ || _); [eexists; reflexivity|].
    apply takeSql_done. }
  destruct (scanLines _ _ _ _) as [st1 sqlLines].
  destruct (0 <? _); [|eexists; reflexivity].
  destruct (AICode_eqb _ _); [eexists; reflexivity|].
  apply takeSql_done.
Qed.

Lemma extractExplanation_done trimmedResponse st :
  exists st', extractExplanation trimmedResponse st = Done st'.
Proof.
  unfold extractExplanation.
  destruct (exec explanationPattern trimmedResponse) as [m|] eqn:H;
    [|eexists; reflexivity].
  read_group H. eexists; reflexivity.
Qed.

Lemma notSqlRequestPass_done response st :
  exists st', notSqlRequestPass response st = Done st'.
Proof.
  unfold notSqlRequestPass.
  destruct (AICode_eqb _ _); [|eexists; reflexivity].
  destruct (_ && _); [|eexists; reflexivity].
  destruct (exec notSqlExplanationPattern response) as [m|] eqn:H.
  - read_group H. eexists; reflexivity.
  - destruct (_ && _); eexists; reflexivity.
Qed.

Lemma extracted_done response : exists st, extracted response = Done st.
Proof.
  unfold extracted.
  destruct (extractSql_done (trim response)
              (detectCode codePatterns (trim response) initial)) as [s1 E1].
  rewrite E1; simpl.
  destruct (extractExplanation_done (trim response) s1) as [s2 E2].
  rewrite E2; simpl.
  apply notSqlRequestPass_done.
Qed.

Lemma parseAIResponse_done response :
  exists r, parseAIResponse response = Done r.
Proof.
  unfold parseAIResponse.
  destruct (extracted_done response) as [st E]. rewrite E; simpl.
  eexists; reflexivity.
Qed.

End Total.

(** ** How the later stages treat the code *)

Lemma truthy_nil_iff (s : jsstring) : truthy s = false <-> s = [].
Proof. destruct s; simpl; split; congruence. Qed.

Lemma nonBlankLines_nil : nonBlankLines [] = [].
Proof. reflexivity. Qed.

Lemma checkLineCount_code st :
  l_code (checkLineCount st) = l_code st
  \/ (l_code st = SUCCESS /\ l_code (checkLineCount st) = COMPLEX_QUERY).
Proof.
  unfold checkLineCount.
  destruct (truthy (l_sql st)); simpl; auto.
  destruct (AICode_eqb (l_code st) SUCCESS) eqn:E; auto.
  apply AICode_eqb_eq in E.
  destruct (50 <? _); auto.
  right. split; auto. destruct (negb _); reflexivity.
Qed.

Lemma fallbackSql_code response st :
  l_code (fallbackSql response st) = l_code st.
Proof.
  unfold fallbackSql.
  destruct (_ && _); auto. destruct (_ && _); reflexivity.
Qed.

Lemma extractExplanation_code trimmedResponse st st' :
  extractExplanation trimmedResponse st = Done st' -> l_code st' = l_code st.
Proof.
  unfold extractExplanation.
  destruct (exec _ _) as [m|].
  - destruct (groupTrim _ _ _); simpl; [|discriminate].
    intros H; injection H as <-; reflexivity.
  - intros H; injection H as <-; reflexivity.
Qed.

Lemma notSqlRequestPass_code response st st' :
  notSqlRequestPass response st = Done st' -> l_code st' = l_code st.
Proof.
  unfold notSqlRequestPass.
  destruct (AICode_eqb _ _).
  - destruct (_ && _).
    + destruct (exec _ _) as [m|].
      * destruct (groupTrim _ _ _); simpl; [|discriminate].
        intros H; injection H as <-; reflexivity.
      * destruct (_ && _); intros H; injection H as <-; reflexivity.
    + intros H; injection H as <-; reflexivity.
  - intros H; injection H as <-; reflexivity.
Qed.

(** A code that is not SUCCESS once the extraction is over is the code that
    is returned. *)
Lemma final_code response st :
  extracted response = Done st ->
  l_code st <> SUCCESS ->
  exists r, parseAIResponse response = Done r /\ code r = l_code st.
Proof.
  intros E Hc. unfold parseAIResponse. rewrite E; simpl.
  eexists; split; [reflexivity|]. simpl.
  destruct (checkLineCount_code
              (fallbackSql response (checkLineCount st))) as [H|[H _]];
    rewrite fallbackSql_code in H;
    destruct (checkLineCount_code st) as [H1|[H1 H2]];
    try contradiction; try congruence.
Qed.

(** The returned [sql] of the two codes [respond] singles out. *)
Lemma respond_clears st :
  l_code st = NOT_SQL_REQUEST \/ l_code st = COMPLEX_QUERY ->
  sql (respond st) = Some [].
Proof. intros [H|H]; unfold respond; simpl; rewrite H; reflexivity. Qed.

Lemma parseAIResponse_respond response r :
  parseAIResponse response = Done r -> exists st, r = respond st.
Proof.
  unfold parseAIResponse. destruct (extracted response); simpl;
    [|discriminate].
  intros H; injection H as <-. eexists; reflexivity.
Qed.

(** ** The line ceiling *)

Arguments CODE_MESSAGES : simpl never.
Arguments tooLongExplanation : simpl never.
Arguments nonBlankLines : simpl never.

Lemma tooLongExplanation_truthy n : truthy (tooLongExplanation n) = true.
Proof. reflexivity. Qed.


Lemma checkLineCount_idle st :
  l_code st <> SUCCESS -> checkLineCount st = st.
Proof.
  intros Hc. unfold checkLineCount.
  destruct (AICode_eqb (l_code st) SUCCESS) eqn:E.
  - apply AICode_eqb_eq in E. contradiction.
  - rewrite andb_false_r. reflexivity.
Qed.


Lemma fallbackSql_keeps response st :
  l_code (fallbackSql response st) = l_code st
  /\ l_message (fallbackSql response st) = l_message st
  /\ l_explanation (fallbackSql response st) = l_explanation st.
Proof.
  unfold fallbackSql.
  destruct (_ && _); auto. destruct (_ && _); auto.
Qed.



Example wellFormed_ex :
  parseAIResponse
    (lines ["CODE:SUCCESS"; EmptyString; "SELECT 1;"; EmptyString;
            "EXPLANATION: test"]%string)
  = Done {| code := SUCCESS; message := CODE_MESSAGES SUCCESS;
            sql := Some (str "SELECT 1;"); explanation := Some (str "test") |}.
Proof. vm_compute. reflexivity. Qed.

Example fifty_lines_ex :
  exists r, parseAIResponse (successWithLines 50) = Done r
            /\ code r = SUCCESS
            /\ option_map nonBlankLines (sql r)
               = Some (List.repeat (str "SELECT 1") 50).
Proof. eexists. vm_compute. repeat split. Qed.

(** ** Properties of the classifier *)

(** C1, as the specification words it, fails: for a code other than SUCCESS
    the returned [sql] need not be empty. A reply marked SCHEMA_MISMATCH that
    carries a fenced statement comes back with that statement in [sql]. *)
Lemma C1_non_success_sql_not_always_empty :
  ~ (forall response r,
       parseAIResponse response = Done r ->
       code r <> SUCCESS -> emptySql r).
Proof.
  intros H.
  assert (E : parseAIResponse mismatchWithBlock =
              Done {| code := SCHEMA_MISMATCH;
                      message := CODE_MESSAGES SCHEMA_MISMATCH;
                      sql := Some (str "SELECT 1;");
                      explanation := None |})
    by (vm_compute; reflexivity).
  assert (Hne : SCHEMA_MISMATCH <> SUCCESS) by discriminate.
  destruct (H _ _ E Hne) as [K|K]; simpl in K; discriminate.
Qed.

(** C1, amended: whenever the returned code is NOT_SQL_REQUEST or
    COMPLEX_QUERY, the two codes line 277 singles out, the returned [sql] is
    the empty string. *)
Theorem C1_cleared_codes_have_empty_sql response r :
  parseAIResponse response = Done r ->
  code r = NOT_SQL_REQUEST \/ code r = COMPLEX_QUERY ->
  sql r = Some [].
Proof.
  intros E Hc. destruct (parseAIResponse_respond _ E) as [st ->].
  apply respond_clears. exact Hc.
Qed.

Lemma C1_cleared_codes_witness :
  sql {| code := COMPLEX_QUERY;
         message := CODE_MESSAGES COMPLEX_QUERY;
         sql := Some [];
         explanation := Some (tooLongExplanation 51) |} = Some [].
Proof.
  apply (@C1_cleared_codes_have_empty_sql (successWithLines 51)).
  - vm_compute. reflexivity.
  - right. reflexivity.
Defined.



(** C5: once the code stands at NOT_SQL_REQUEST after the marker detection
    and the SQL extraction, by a code marker or by the marker found in the
    SQL field, the response carries NOT_SQL_REQUEST and the empty string as
    [sql]; and no response with code NOT_SQL_REQUEST carries anything else
    in [sql]. *)
Theorem C5_not_sql_request_has_empty_sql response :
  (forall st,
     extractSql (trim response)
       (detectCode codePatterns (trim response) initial) = Done st ->
     l_code st = NOT_SQL_REQUEST ->
     exists r, parseAIResponse response = Done r
               /\ code r = NOT_SQL_REQUEST /\ sql r = Some [])
  /\ (forall r,
        parseAIResponse response = Done r ->
        code r = NOT_SQL_REQUEST -> sql r = Some []).
Proof.
  split.
  - intros st E Hc.
    destruct (extractExplanation_done (trim response) st) as [s2 E2].
    destruct (notSqlRequestPass_done response s2) as [s3 E3].
    assert (Ex : extracted response = Done s3).
    { unfold extracted. rewrite E; simpl. rewrite E2; simpl. exact E3. }
    assert (Hc3 : l_code s3 = NOT_SQL_REQUEST).
    { rewrite (notSqlRequestPass_code _ _ E3).
      rewrite (extractExplanation_code _ _ E2). exact Hc. }
    destruct (final_code _ Ex) as (r & Er & Hr).
    { rewrite Hc3. discriminate. }
    exists r. rewrite Hc3 in Hr. repeat split; auto.
    destruct (parseAIResponse_respond _ Er) as [st' ->].
    apply respond_clears. left. exact Hr.
  - intros r E Hc. destruct (parseAIResponse_respond _ E) as [st ->].
    apply respond_clears. left. exact Hc.
Qed.

Lemma C5_marker_in_sql_field :
  l_code (detectCode codePatterns (trim notSqlInSqlField) initial) = SUCCESS
  /\ exists r, parseAIResponse notSqlInSqlField = Done r
               /\ code r = NOT_SQL_REQUEST /\ sql r = Some [].
Proof.
  split; [vm_compute; reflexivity|].
  apply (proj1 (C5_not_sql_request_has_empty_sql notSqlInSqlField)
           {| l_code := NOT_SQL_REQUEST;
              l_message := CODE_MESSAGES NOT_SQL_REQUEST;
              l_sql := []; l_explanation := [] |}).
  - vm_compute. reflexivity.
  - reflexivity.
Defined.

(** C8, as the specification words it, fails: on the schema-mismatch reply
    the returned [sql] is not the empty string (and not [undefined]). *)
Lemma C8_schema_mismatch_sql_not_empty :
  ~ (exists r, parseAIResponse schemaMismatchReply = Done r
               /\ code r = SCHEMA_MISMATCH
               /\ message r = CODE_MESSAGES SCHEMA_MISMATCH
               /\ emptySql r
               /\ explanation r
                  = Some (str "No invoices table in this schema.")).
Proof.
  intros (r & E & _ & _ & Hs & _).
  assert (E' : parseAIResponse schemaMismatchReply =
               Done {| code := SCHEMA_MISMATCH;
                       message := CODE_MESSAGES SCHEMA_MISMATCH;
                       sql := Some (trim (remove codePrefix
                                            schemaMismatchReply));
                       explanation :=
                         Some (str "No invoices table in this schema.") |})
    by (vm_compute; reflexivity).
  rewrite E' in E. injection E as <-.
  destruct Hs as [K|K]; vm_compute in K; discriminate.
Qed.

(** C8, amended: on the schema-mismatch reply [parseAIResponse] returns code
    SCHEMA_MISMATCH, the fixed schema-mismatch message, the explanation
    "No invoices table in this schema.", and as [sql] the fallback text: the
    reply without its leading "SCHEMA_MISMATCH:", trimmed. *)
Theorem C8_schema_mismatch_reply :
  parseAIResponse schemaMismatchReply =
  Done {| code := SCHEMA_MISMATCH;
          message := CODE_MESSAGES SCHEMA_MISMATCH;
          sql := Some (lines ["the table 'invoices' does not exist";
                              EmptyString;
                              "EXPLANATION: No invoices table in this schema."]%string);
          explanation := Some (str "No invoices table in this schema.") |}.
Proof. vm_compute. reflexivity. Qed.

(** C9: [parseAIResponse] returns a response on every string, it never
    throws; on the empty string the code is SUCCESS and [sql] is absent. *)
Theorem C9_parseAIResponse_total :
  (forall response, exists r, parseAIResponse response = Done r)
  /\ parseAIResponse [] =
     Done {| code := SUCCESS; message := CODE_MESSAGES SUCCESS;
             sql := None; explanation := None |}.
Proof.
  split.
  - exact parseAIResponse_done.
  - vm_compute. reflexivity.
Qed.

(** ** What an accepted input went through *)

Lemma arrayIncludes_In x a : arrayIncludes x a = true <-> In x a.
Proof.
  unfold arrayIncludes. rewrite existsb_exists. split.
  - intros (y & Hy & E). apply eqs_spec in E. subst y. exact Hy.
  - intros H. exists x. split; [exact H|]. apply eqs_spec. reflexivity.
Qed.

Lemma validateNode_passed sql allowedTables node :
  validateNode sql allowedTables node = Done None ->
  passed sql allowedTables node.
Proof.
  unfold validateNode.
  destruct (statementType node) as [type|] eqn:Et; cbn [bind];
    [|discriminate].
  destruct (arrayIncludes type ALLOWED_TYPES) eqn:Ea; cbn [negb];
    [|discriminate].
  destruct (find _ BLOCKED_PATTERNS) as [b|] eqn:Eb; [discriminate|].
  intros H. split.
  - exists type. split; [exact Et|]. apply arrayIncludes_In. exact Ea.
  - intros b Hb. exact (find_none _ _ Eb b Hb).
  - intros allowed -> Hne.
    destruct allowed as [|a allowed]; [contradiction|].
    cbn [List.length Nat.ltb Nat.leb] in H.
    destruct (extractTableNames node) as [tablesFound|]; cbn [bind] in H;
      [|discriminate].
    exists tablesFound. split; [reflexivity|].
    destruct (find _ tablesFound) as [t|] eqn:Ef; [discriminate|].
    intros table Ht. pose proof (find_none _ _ Ef table Ht) as Hin.
    apply negb_false_iff in Hin. apply arrayIncludes_In. exact Hin.
Qed.

Lemma validateNodes_passed sql allowedTables nodes :
  validateNodes sql allowedTables nodes = Done None ->
  Forall (passed sql allowedTables) nodes.
Proof.
  induction nodes as [|node nodes IH]; simpl; [constructor|].
  destruct (validateNode sql allowedTables node) as [[e|]|] eqn:E; simpl;
    try discriminate.
  intros H. constructor; [apply validateNode_passed; exact E | auto].
Qed.

Lemma validateSql_ok astify sql allowedTables statements :
  validateSql astify sql allowedTables = Done (Ok statements) ->
  astify sql = inl statements
  /\ validateNodes sql allowedTables (flatten statements) = Done None.
Proof.
  unfold validateSql, parseSqlToAst.
  destruct (negb (truthy sql)); [discriminate|].
  destruct (_ =? 0); [discriminate|].
  destruct (astify sql) as [ast|msg]; [|discriminate].
  destruct (validateNodes _ _ _) as [[e|]|] eqn:Ev; simpl; try discriminate.
  intros H; injection H as <-. split; [reflexivity | exact Ev].
Qed.

(** Past the two emptiness checks and the parser, the result is that of
    the loop. *)
Lemma validateSql_parsed astify sql allowedTables ast :
  truthy sql = true ->
  fragments sql <> [] ->
  astify sql = inl ast ->
  validateSql astify sql allowedTables =
  (r <- validateNodes sql allowedTables (flatten ast) ;;
   match r with
   | Some e => Done (Rejected e)
   | None => Done (Ok ast)
   end).
Proof.
  intros Ht Hf Ha. unfold validateSql, parseSqlToAst.
  rewrite Ht, Ha. simpl.
  destruct (fragments sql); [contradiction | reflexivity].
Qed.

(** The loop stops at the first statement that references a table outside
    a non-empty allow-list, when nothing else stopped it before. *)
Lemma validateNodes_table sql allowed nodes :
  allowed <> [] ->
  (forall b, In b BLOCKED_PATTERNS -> test (pattern b) sql = false) ->
  Forall (fun node => exists type,
            statementType node = Done type /\ In type ALLOWED_TYPES) nodes ->
  Exists (fun node => exists tablesFound table,
            extractTableNames node = Done tablesFound
            /\ In table tablesFound /\ ~ In table allowed) nodes ->
  exists node tablesFound table,
    In node nodes
    /\ extractTableNames node = Done tablesFound
    /\ In table tablesFound /\ ~ In table allowed
    /\ validateNodes sql (Some allowed) nodes
       = Done (Some (tableError table allowed)).
Proof.
  intros Hne Hb Hty Hex.
  assert (Eb : find (fun b => test (pattern b) sql) BLOCKED_PATTERNS = None).
  { destruct (find _ BLOCKED_PATTERNS) as [b|] eqn:E; [|reflexivity].
    apply find_some in E. destruct E as [Hin Ht].
    rewrite (Hb b Hin) in Ht. discriminate. }
  assert (Hlen : (0 <? List.length allowed) = true).
  { destruct allowed; [contradiction | reflexivity]. }
  induction nodes as [|node nodes IH]; [inversion Hex|].
  inversion Hty as [|? ? (type & Et & Hin) Hty']; subst.
  assert (Hstep : forall tablesFound,
            extractTableNames node = Done tablesFound ->
            validateNode sql (Some allowed) node =
            Done (option_map (fun t => tableError t allowed)
                    (find (fun t => negb (arrayIncludes t allowed))
                          tablesFound))).
  { intros tablesFound Ex. unfold validateNode. rewrite Et. cbn [bind].
    apply arrayIncludes_In in Hin. rewrite Hin. cbn [negb].
    rewrite Eb, Hlen, Ex. cbn [bind].
    destruct (find _ tablesFound); reflexivity. }
  assert (Hnode : exists tablesFound, extractTableNames node = Done tablesFound).
  { unfold statementType in Et. unfold extractTableNames.
    destruct node; simpl in Et; try discriminate;
      try (eexists; reflexivity);
      exfalso; injection Et as <-; apply arrayIncludes_In in Hin;
      vm_compute in Hin; discriminate. }
  destruct Hnode as [tablesFound Ex].
  cbn [validateNodes]. rewrite (Hstep _ Ex). cbn [bind].
  destruct (find _ tablesFound) as [t|] eqn:Ef; cbn [option_map].
  - apply find_some in Ef. destruct Ef as [Hint Hnot].
    exists node, tablesFound, t.
    split; [left; reflexivity|]. split; [exact Ex|]. split; [exact Hint|].
    split; [|reflexivity].
    apply negb_true_iff in Hnot. intros C. apply arrayIncludes_In in C.
    congruence.
  - assert (Hex' : Exists (fun node => exists tablesFound table,
              extractTableNames node = Done tablesFound
              /\ In table tablesFound /\ ~ In table allowed) nodes).
    { inversion Hex as [? ? (tf & t & Ex' & Hint & Hnot)|]; subst; auto.
      rewrite Ex in Ex'. injection Ex' as <-.
      pose proof (find_none _ _ Ef t Hint) as Hf.
      apply negb_false_iff, arrayIncludes_In in Hf. contradiction. }
    destruct (IH Hty' Hex') as (n & tf & t & Hn & Ex' & Hint & Hnot & Hv).
    exists n, tf, t.
    split; [right; exact Hn|]. split; [exact Ex'|]. split; [exact Hint|].
    split; [exact Hnot | exact Hv].
Qed.

(** What the loop does with one statement of an allow-listed kind. *)
Lemma validateNode_allowedKind sql allowedTables node :
  allowedKind node ->
  validateNode sql allowedTables node =
  match find (fun b => test (pattern b) sql) BLOCKED_PATTERNS with
  | Some b => Done (Some (blockedError (name b)))
  | None =>
      match allowedTables with
      | Some allowed =>
          if 0 <? List.length allowed then
            tablesFound <- extractTableNames node ;;
            match find (fun table => negb (arrayIncludes table allowed))
                       tablesFound with
            | Some table => Done (Some (tableError table allowed))
            | None => Done None
            end
          else Done None
      | None => Done None
      end
  end.
Proof.
  intros (type & Et & Hin). unfold validateNode. rewrite Et. cbn [bind].
  apply arrayIncludes_In in Hin. rewrite Hin. reflexivity.
Qed.

Example extractTableNames_join :
  extractTableNames joinAst = Done [str "students"; str "unauthorized"].
Proof. reflexivity. Qed.

Example blocked_ex :
  map (fun sql => option_map name
         (find (fun b => test (pattern b) sql) BLOCKED_PATTERNS))
      [str "COPY  FROM x"; str "\copy t"; str "grant all"; str "grants";
       str "SELECT copy_from FROM t"; str "drop role r"; str "create roles"]
  = [Some (str "COPY FROM"); Some (str "\COPY"); Some (str "GRANT"); None;
     None; Some (str "DROP ROLE"); None].
Proof. vm_compute. reflexivity. Qed.

(** ** Properties of the safety gate *)

(** C2, as the specification words it, fails: the blocked patterns are
    tested inside the loop over the statements, so a text in which the
    parser finds no statement is accepted although it matches the GRANT
    pattern. *)
Lemma C2_empty_tree_skips_the_patterns :
  ~ (forall (astify : jsstring -> jsval + jsstring) sql allowedTables
            statements,
       validateSql astify sql allowedTables = Done (Ok statements) ->
       Forall allowedKind (flatten statements) /\ unblocked sql).
Proof.
  intros H.
  destruct (H emptyTreeAstify (str "-- grant all") None (JArr []))
    as [_ Hu]; [vm_compute; reflexivity|].
  assert (Hb : exists b, In b BLOCKED_PATTERNS
                         /\ test (pattern b) (str "-- grant all") = true)
    by (eexists; split;
        [do 4 right; left; reflexivity | vm_compute; reflexivity]).
  destruct Hb as (b & Hin & Ht). rewrite (Hu b Hin) in Ht. discriminate.
Qed.

(** C2, amended: when [validateSql] accepts, [statements] is what the parser
    gave and each of its statements has a kind on the allow-list; and when
    the parser gave at least one statement, no blocked pattern matches the
    raw text. *)
Theorem C2_accepted_input_passed_the_checks
    astify sql allowedTables statements :
  validateSql astify sql allowedTables = Done (Ok statements) ->
  flatten statements <> [] ->
  astify sql = inl statements
  /\ Forall allowedKind (flatten statements)
  /\ unblocked sql.
Proof.
  intros H Hne. apply validateSql_ok in H. destruct H as [Ha Hv].
  apply validateNodes_passed in Hv.
  split; [exact Ha|]. split.
  - eapply Forall_impl; [|exact Hv]. intros node Hp.
    exact (passed_type Hp).
  - destruct (flatten statements) as [|node nodes]; [contradiction|].
    inversion Hv as [|? ? Hp _]; subst. exact (passed_patterns Hp).
Qed.

Lemma C2_accepted_students_query :
  sampleAstify studentsQuery = inl studentsAst
  /\ Forall allowedKind (flatten studentsAst)
  /\ unblocked studentsQuery.
Proof.
  apply (@C2_accepted_input_passed_the_checks sampleAstify studentsQuery
           (Some [str "students"]) studentsAst).
  - vm_compute. reflexivity.
  - vm_compute. discriminate.
Defined.

(** C3, as the specification words it, fails for the empty list: with
    [allowedTables = []] a statement that reads [students] is accepted. *)
Lemma C3_empty_allow_list_is_not_enforced :
  ~ (forall astify sql allowed statements,
       validateSql astify sql (Some allowed) = Done (Ok statements) ->
       Forall (tablesWithin allowed) (flatten statements)).
Proof.
  intros H.
  assert (E : validateSql sampleAstify studentsQuery (Some [])
              = Done (Ok studentsAst)) by (vm_compute; reflexivity).
  apply H in E. vm_compute in E.
  inversion E as [|? ? (tablesFound & Ex & Hin) _]; subst.
  injection Ex as <-. exact (Hin _ (or_introl eq_refl)).
Qed.

(** C3, amended: when [allowedTables] is given and not empty, an accepted
    input references only tables of the list; and when the text passes the
    emptiness checks and parses, every statement has an allow-listed kind, no
    blocked pattern matches and some statement references a table outside
    the list, the input is rejected with the error that names such a
    table. *)
Theorem C3_table_allow_list astify sql allowed :
  allowed <> [] ->
  (forall statements,
     validateSql astify sql (Some allowed) = Done (Ok statements) ->
     Forall (tablesWithin allowed) (flatten statements))
  /\ (forall ast,
        truthy sql = true -> fragments sql <> [] ->
        astify sql = inl ast ->
        Forall allowedKind (flatten ast) ->
        unblocked sql ->
        Exists (fun node => exists table, offends allowed table node)
               (flatten ast) ->
        exists node table,
          In node (flatten ast) /\ offends allowed table node
          /\ validateSql astify sql (Some allowed)
             = Done (Rejected (tableError table allowed))).
Proof.
  intros Hne. split.
  - intros statements H. apply validateSql_ok in H. destruct H as [_ Hv].
    apply validateNodes_passed in Hv.
    eapply Forall_impl; [|exact Hv]. intros node Hp.
    exact (passed_tables Hp eq_refl Hne).
  - intros ast Ht Hf Ha Hk Hb Hex.
    rewrite (@validateSql_parsed astify sql (Some allowed) ast Ht Hf Ha).
    destruct (@validateNodes_table sql allowed (flatten ast) Hne Hb Hk)
      as (node & tf & table & Hin & Ex & Hint & Hnot & Hv).
    { eapply Exists_impl; [|exact Hex].
      intros node (table & tf & Ex & Hint & Hnot). exists tf, table. auto. }
    exists node, table. split; [exact Hin|]. split.
    + exists tf. auto.
    + rewrite Hv. reflexivity.
Qed.

Lemma C3_join_outside_the_list :
  exists node table,
    In node (flatten joinAst) /\ offends [str "students"] table node
    /\ validateSql sampleAstify joinQuery (Some [str "students"])
       = Done (Rejected (tableError table [str "students"])).
Proof.
  assert (Hne : [str "students"] <> []) by discriminate.
  apply (proj2 (@C3_table_allow_list sampleAstify joinQuery
                  [str "students"] Hne) joinAst).
  - reflexivity.
  - vm_compute. discriminate.
  - vm_compute. reflexivity.
  - constructor; [|constructor].
    exists (str "select"). split; [reflexivity|]. left. reflexivity.
  - intros b Hb. vm_compute in Hb.
    repeat (destruct Hb as [<-|Hb]; [vm_compute; reflexivity|]).
    contradiction.
  - constructor. exists (str "unauthorized"), [str "students"; str "unauthorized"].
    split; [reflexivity|]. split; [right; left; reflexivity|].
    intros [C|[]]. vm_compute in C. discriminate.
Defined.

(** C6, as the specification words it, fails: the text is parsed (lines
    158-165) before any blocked pattern is tested, and a parser that throws
    on [DROP ROLE], as node-sql-parser does, makes [validateSql] return the
    parse error, not the error of the blocked pattern. *)
Lemma C6_parse_error_comes_first :
  ~ (forall (astify : jsstring -> jsval + jsstring) allowedTables,
       validateSql astify dropRoleBatch allowedTables
       = Done (Rejected
                 (str "Operation 'DROP ROLE' is not allowed in PGlite (browser environment)."))).
Proof.
  intros H. specialize (H sampleAstify None).
  assert (E : validateSql sampleAstify dropRoleBatch None
              = Done (Rejected (str "SQL parse error: Unexpected input")))
    by (vm_compute; reflexivity).
  rewrite E in H. vm_compute in H. discriminate.
Qed.

(** C6, amended: on ["SELECT * FROM a; DROP ROLE x;"], whatever the table
    list, [validateSql] never accepts a tree that has a statement. When the
    parser throws, the error is its message after "SQL parse error: " and no
    pattern is tested; when it gives statements and the first has an
    allow-listed kind (as [select] and [drop] both are), the error is the
    one of the blocked pattern DROP ROLE. And on any text, acceptance means
    that every statement passed every check: one statement that fails fails
    the batch. *)
Theorem C6_drop_role_batch_never_accepted
    (astify : jsstring -> jsval + jsstring) allowedTables :
  (forall statements,
     flatten statements <> [] ->
     validateSql astify dropRoleBatch allowedTables <> Done (Ok statements))
  /\ (forall msg,
        astify dropRoleBatch = inr msg ->
        validateSql astify dropRoleBatch allowedTables
        = Done (Rejected (str "SQL parse error: " ++ msg)))
  /\ (forall ast node nodes,
        astify dropRoleBatch = inl ast ->
        flatten ast = node :: nodes ->
        allowedKind node ->
        validateSql astify dropRoleBatch allowedTables
        = Done (Rejected
                  (str "Operation 'DROP ROLE' is not allowed in PGlite (browser environment).")))
  /\ In (str "select") ALLOWED_TYPES /\ In (str "drop") ALLOWED_TYPES
  /\ (forall sql tables statements,
        validateSql astify sql tables = Done (Ok statements) ->
        Forall (passed sql tables) (flatten statements)).
Proof.
  assert (Hfr : fragments dropRoleBatch <> []) by (vm_compute; discriminate).
  assert (Eb : exists b,
             In b BLOCKED_PATTERNS
             /\ find (fun b => test (pattern b) dropRoleBatch) BLOCKED_PATTERNS
                = Some b
             /\ name b = str "DROP ROLE").
  { eexists. split; [do 9 right; left; reflexivity|].
    split; vm_compute; reflexivity. }
  destruct Eb as (b & Hin & Eb & Hn).
  split; [|split; [|split; [|split; [|split]]]].
  - intros statements Hne H. apply validateSql_ok in H.
    destruct H as [_ Hv]. apply validateNodes_passed in Hv.
    destruct (flatten statements) as [|node nodes]; [contradiction|].
    inversion Hv as [|? ? Hp _]; subst.
    pose proof (passed_patterns Hp Hin) as Hf.
    apply find_some in Eb. destruct Eb as [_ Ht]. congruence.
  - intros msg Ha. unfold validateSql, parseSqlToAst. rewrite Ha.
    destruct (fragments dropRoleBatch); [contradiction | reflexivity].
  - intros ast node nodes Ha Hf Hk.
    rewrite (@validateSql_parsed astify dropRoleBatch allowedTables ast
               eq_refl Hfr Ha).
    rewrite Hf. cbn [validateNodes].
    rewrite (validateNode_allowedKind dropRoleBatch allowedTables Hk).
    rewrite Eb, Hn. reflexivity.
  - vm_compute; tauto.
  - vm_compute; tauto.
  - intros sql tables statements H. apply validateSql_ok in H.
    apply validateNodes_passed. apply H.
Qed.

Lemma C6_sample_parser_throws :
  validateSql sampleAstify dropRoleBatch (Some [str "a"])
  = Done (Rejected (str "SQL parse error: " ++ str "Unexpected input"))
  /\ validateSql sampleAstify dropRoleBatch (Some [str "a"])
     <> Done (Ok studentsAst).
Proof.
  destruct (C6_drop_role_batch_never_accepted sampleAstify
              (Some [str "a"])) as (Hno & Hthrow & _).
  split.
  - apply Hthrow. vm_compute. reflexivity.
  - apply Hno. vm_compute. discriminate.
Defined.

(** C7: with the list [["students"]], when the parser gives for the join
    one select statement that references [students] and [unauthorized], the
    join is rejected and the error names [unauthorized]; when it gives for
    ["SELECT * FROM students"] one select statement that references
    [students], that query is accepted. *)
Theorem C7_join_rejected_students_accepted
    astify joinTree joinNode studentsTree studentsNode :
  astify joinQuery = inl joinTree ->
  flatten joinTree = [joinNode] ->
  allowedKind joinNode ->
  extractTableNames joinNode = Done [str "students"; str "unauthorized"] ->
  astify studentsQuery = inl studentsTree ->
  flatten studentsTree = [studentsNode] ->
  allowedKind studentsNode ->
  extractTableNames studentsNode = Done [str "students"] ->
  validateSql astify joinQuery (Some [str "students"])
  = Done (Rejected
            (str "Table 'unauthorized' is not allowed. Allowed tables: students"))
  /\ validateSql astify studentsQuery (Some [str "students"])
     = Done (Ok studentsTree).
Proof.
  intros Ha1 Hf1 Hk1 Ht1 Ha2 Hf2 Hk2 Ht2. split.
  - assert (Hfr : fragments joinQuery <> []) by (vm_compute; discriminate).
    rewrite (@validateSql_parsed astify joinQuery _ joinTree eq_refl Hfr Ha1).
    rewrite Hf1. cbn [validateNodes].
    rewrite (validateNode_allowedKind joinQuery _ Hk1).
    replace (find (fun b => test (pattern b) joinQuery) BLOCKED_PATTERNS)
      with (@None blocked) by (vm_compute; reflexivity).
    rewrite Ht1. reflexivity.
  - assert (Hfr : fragments studentsQuery <> [])
      by (vm_compute; discriminate).
    rewrite (@validateSql_parsed astify studentsQuery _ studentsTree
               eq_refl Hfr Ha2).
    rewrite Hf2. cbn [validateNodes].
    rewrite (validateNode_allowedKind studentsQuery _ Hk2).
    replace (find (fun b => test (pattern b) studentsQuery) BLOCKED_PATTERNS)
      with (@None blocked) by (vm_compute; reflexivity).
    rewrite Ht2. reflexivity.
Qed.

Lemma C7_sample_parser :
  validateSql sampleAstify joinQuery (Some [str "students"])
  = Done (Rejected
            (str "Table 'unauthorized' is not allowed. Allowed tables: students"))
  /\ validateSql sampleAstify studentsQuery (Some [str "students"])
     = Done (Ok studentsAst).
Proof.
  apply (@C7_join_rejected_students_accepted sampleAstify
           joinAst joinAst studentsAst studentsAst).
  - vm_compute. reflexivity.
  - reflexivity.
  - exists (str "select"). split; [reflexivity|]. left. reflexivity.
  - reflexivity.
  - vm_compute. reflexivity.
  - reflexivity.
  - exists (str "select"). split; [reflexivity|]. left. reflexivity.
  - reflexivity.
Defined.

(** C10: [validateSql] rejects the empty string and the string of three
    spaces with "Empty SQL", whatever the parser and the table list: the
    empty string is falsy, the spaces are truthy and leave no fragment. *)
Theorem C10_empty_sql_rejected
    (astify : jsstring -> jsval + jsstring) allowedTables :
  validateSql astify [] allowedTables = Done (Rejected (str "Empty SQL"))
  /\ validateSql astify (str "   ") allowedTables
     = Done (Rejected (str "Empty SQL"))
  /\ truthy [] = false
  /\ truthy (str "   ") = true
  /\ fragments (str "   ") = [].
Proof. repeat split. Qed.

(** * Further properties *)

(** ** [trim] *)

Lemma trimStart_idem s : trimStart (trimStart s) = trimStart s.
Proof.
  induction s as [|c s IH]; simpl; [reflexivity|].
  destruct (isSpace c) eqn:E; [exact IH|]. simpl. rewrite E. reflexivity.
Qed.

Lemma trimStart_length s : List.length (trimStart s) <= List.length s.
Proof.
  induction s as [|c s IH]; simpl; [lia|].
  destruct (isSpace c); simpl; lia.
Qed.

(** The spaces [trimStart] strips. *)
Lemma trimStart_suffix s :
  exists w, s = w ++ trimStart s /\ forallb isSpace w = true.
Proof.
  induction s as [|c s (w & E & Hw)]; simpl.
  - exists []. split; reflexivity.
  - destruct (isSpace c) eqn:Ec.
    + exists (c :: w). simpl. rewrite Ec, Hw. split; [f_equal; exact E|].
      reflexivity.
    + exists []. split; reflexivity.
Qed.

Lemma trimStart_fixed_head c s :
  trimStart (c :: s) = c :: s -> isSpace c = false.
Proof.
  simpl. destruct (isSpace c); [|reflexivity].
  intros H. pose proof (trimStart_length s) as L. rewrite H in L.
  simpl in L. lia.
Qed.

Lemma trimStart_keep c s : isSpace c = false -> trimStart (c :: s) = c :: s.
Proof. intros H. simpl. rewrite H. reflexivity. Qed.

Lemma trimEnd_idem s : trimEnd (trimEnd s) = trimEnd s.
Proof.
  unfold trimEnd. rewrite rev_involutive, trimStart_idem. reflexivity.
Qed.

Lemma trimEnd_prefix s : exists w, s = trimEnd s ++ w.
Proof.
  unfold trimEnd. destruct (trimStart_suffix (rev s)) as (w & E & _).
  exists (rev w). rewrite <- rev_app_distr, <- E, rev_involutive.
  reflexivity.
Qed.

(** Stripping the end does not bring a space to the front. *)
Lemma trimStart_trimEnd s :
  trimStart s = s -> trimStart (trimEnd s) = trimEnd s.
Proof.
  intros H. destruct (trimEnd_prefix s) as (w & E).
  destruct (trimEnd s) as [|c t] eqn:Et; [reflexivity|].
  rewrite E in H. simpl in H. apply trimStart_fixed_head in H.
  apply (@trimStart_keep c t H).
Qed.

Lemma trim_idem s : trim (trim s) = trim s.
Proof.
  unfold trim.
  rewrite (trimStart_trimEnd (trimStart_idem s)).
  apply trimEnd_idem.
Qed.

Lemma trim_nil : trim [] = [].
Proof. reflexivity. Qed.

(** A string between two code units that are not spaces is left alone. *)
Lemma trim_between c mid d :
  isSpace c = false -> isSpace d = false ->
  trim (c :: mid ++ [d]) = c :: mid ++ [d].
Proof.
  intros Hc Hd. unfold trim. rewrite (@trimStart_keep c (mid ++ [d]) Hc).
  unfold trimEnd.
  replace (rev (c :: mid ++ [d])) with (d :: rev (c :: mid)).
  - rewrite (@trimStart_keep d (rev (c :: mid)) Hd).
    change (d :: rev (c :: mid)) with ([d] ++ rev (c :: mid)).
    rewrite rev_app_distr, rev_involutive. reflexivity.
  - change (c :: mid ++ [d]) with ((c :: mid) ++ [d]).
    rewrite rev_app_distr. reflexivity.
Qed.

Lemma trim_tooLongExplanation n :
  trim (tooLongExplanation n) = tooLongExplanation n.
Proof.
  assert (E : tooLongExplanation n =
              84%N :: (str "he generated SQL query is " ++ numberToString n
                       ++ str " lines long, which exceeds the maximum limit of 50 lines. Please break your request into smaller, simpler queries")
                   ++ [46%N]).
  { unfold tooLongExplanation.
    change (str "The generated SQL query is ")
      with (84%N :: str "he generated SQL query is ").
    change (str " lines long, which exceeds the maximum limit of 50 lines. Please break your request into smaller, simpler queries.")
      with (str " lines long, which exceeds the maximum limit of 50 lines. Please break your request into smaller, simpler queries" ++ [46%N]).
    cbn [app]. f_equal. rewrite !app_assoc. reflexivity. }
  rewrite E. apply trim_between; reflexivity.
Qed.

(** ** What every stage of the classifier keeps *)

Lemma CODE_MESSAGES_truthy c : truthy (CODE_MESSAGES c) = true.
Proof. destruct c; reflexivity. Qed.

Lemma tidy_initial : tidy initial.
Proof. repeat split. Qed.

Lemma tidy_setSql s st : tidy st -> trim s = s -> tidy (setSql s st).
Proof. intros (Hm & _ & He) Hs. repeat split; assumption. Qed.

Lemma tidy_setExplanation e st :
  tidy st -> trim e = e -> tidy (setExplanation e st).
Proof. intros (Hm & Hs & _) He. repeat split; assumption. Qed.

Lemma tidy_becomeNotSqlRequest st : tidy st -> tidy (becomeNotSqlRequest st).
Proof. intros (_ & _ & He). repeat split. exact He. Qed.

Lemma tidy_detectCode patterns trimmedResponse st :
  tidy st -> tidy (detectCode patterns trimmedResponse st).
Proof.
  intros Ht. induction patterns as [|pattern patterns IH]; simpl;
    [exact Ht|].
  destruct (exec pattern trimmedResponse) as [m|]; [|exact IH].
  destruct (knownCode _) as [c|]; [|exact IH].
  rewrite CODE_MESSAGES_truthy. destruct Ht as (_ & Hs & He).
  repeat split; assumption.
Qed.

Lemma groupTrim_trimmed s m n e : groupTrim s m n = Done e -> trim e = e.
Proof.
  unfold groupTrim. destruct (group s m n); [|discriminate].
  intros H; injection H as <-. apply trim_idem.
Qed.

Lemma takeSql_keeps extractedSql st st' :
  takeSql extractedSql st = Done st' ->
  trim extractedSql = extractedSql ->
  tidy st ->
  tidy st' /\ keptOrNotSql (l_code st) (l_code st').
Proof.
  unfold takeSql. intros H Hs Ht.
  destruct (_ || _).
  - assert (Hn : tidy (becomeNotSqlRequest st))
      by (apply tidy_becomeNotSqlRequest; exact Ht).
    destruct (exec explanationPattern extractedSql) as [m|].
    + destruct (negb _).
      * destruct (groupTrim extractedSql m 1) as [e|] eqn:Eg; simpl in H;
          [|discriminate].
        injection H as <-. split; [|right; reflexivity].
        apply tidy_setExplanation; [exact Hn|].
        exact (@groupTrim_trimmed _ _ _ _ Eg).
      * injection H as <-. split; [exact Hn | right; reflexivity].
    + injection H as <-. split; [exact Hn | right; reflexivity].
  - injection H as <-. split; [|left; reflexivity].
    apply tidy_setSql; assumption.
Qed.

Lemma scanLines_keeps lines st sqlStart sqlLines :
  tidy st ->
  tidy (fst (scanLines lines st sqlStart sqlLines))
  /\ keptOrNotSql (l_code st)
       (l_code (fst (scanLines lines st sqlStart sqlLines))).
Proof.
  intros Ht. revert sqlStart sqlLines.
  induction lines as [|line lines IH]; intros sqlStart sqlLines; simpl.
  - split; [exact Ht | left; reflexivity].
  - destruct (test explanationLine line);
      [split; [exact Ht | left; reflexivity]|].
    destruct (test markerLine line); [apply IH|].
    destruct (AICode_eqb (l_code st) NOT_SQL_REQUEST);
      [split; [exact Ht | left; reflexivity]|].
    destruct (test notSqlRequestLine line).
    { split; [apply tidy_becomeNotSqlRequest; exact Ht | right; reflexivity]. }
    destruct sqlStart.
    + destruct (_ && _); apply IH.
    + destruct (test sqlVerbLine line); apply IH.
Qed.

Lemma extractSql_keeps trimmedResponse st st' :
  extractSql trimmedResponse st = Done st' ->
  tidy st ->
  tidy st' /\ keptOrNotSql (l_code st) (l_code st').
Proof.
  unfold extractSql. intros H Ht.
  destruct (AICode_eqb (l_code st) NOT_SQL_REQUEST).
  { injection H as <-. split; [|left; reflexivity].
    apply tidy_setSql; [exact Ht | reflexivity]. }
  destruct (exec sqlBlockPattern trimmedResponse) as [m|].
  { destruct (groupTrim trimmedResponse m 1) as [e|] eqn:Eg; simpl in H;
      [|discriminate].
    exact (@takeSql_keeps _ _ _ H (@groupTrim_trimmed _ _ _ _ Eg) Ht). }
  destruct (exec sqlStatementPattern trimmedResponse) as [m|].
  { destruct (groupTrim trimmedResponse m 1) as [e|] eqn:Eg; simpl in H;
      [|discriminate].
    destruct (_ || _).
    - injection H as <-. split; [|left; reflexivity].
      apply tidy_setSql; [exact Ht | reflexivity].
    - exact (@takeSql_keeps _ _ _ H (@groupTrim_trimmed _ _ _ _ Eg) Ht). }
  pose proof (@scanLines_keeps (split nl trimmedResponse) st false [] Ht)
    as (Ht1 & Hc1).
  destruct (scanLines _ st false []) as [st1 sqlLines]. simpl in Ht1, Hc1.
  destruct (0 <? _).
  - destruct (AICode_eqb (l_code st1) NOT_SQL_REQUEST).
    + injection H as <-. split; [|exact Hc1].
      apply tidy_setSql; [exact Ht1 | reflexivity].
    + destruct (@takeSql_keeps _ _ _ H (trim_idem _) Ht1) as (Ht2 & Hc2).
      split; [exact Ht2|].
      destruct Hc2 as [Hc2|Hc2]; [rewrite Hc2; exact Hc1 | right; exact Hc2].
  - injection H as <-. split; assumption.
Qed.

Lemma extractExplanation_keeps trimmedResponse st st' :
  extractExplanation trimmedResponse st = Done st' ->
  tidy st -> tidy st'.
Proof.
  unfold extractExplanation. intros H Ht.
  destruct (exec _ _) as [m|].
  - destruct (groupTrim trimmedResponse m 1) as [e|] eqn:Eg; simpl in H;
      [|discriminate].
    injection H as <-. apply tidy_setExplanation; [exact Ht|].
    exact (@groupTrim_trimmed _ _ _ _ Eg).
  - injection H as <-. exact Ht.
Qed.

Lemma notSqlRequestPass_keeps response st st' :
  notSqlRequestPass response st = Done st' ->
  tidy st -> tidy st'.
Proof.
  unfold notSqlRequestPass. intros H Ht.
  destruct (AICode_eqb _ _); [|injection H as <-; exact Ht].
  assert (Hs : tidy (setSql [] st))
    by (apply tidy_setSql; [exact Ht | reflexivity]).
  destruct (_ && _); [|injection H as <-; exact Hs].
  destruct (exec _ _) as [m|].
  - destruct (groupTrim response m 1) as [e|] eqn:Eg; simpl in H;
      [|discriminate].
    injection H as <-. apply tidy_setExplanation; [exact Hs|].
    exact (@groupTrim_trimmed _ _ _ _ Eg).
  - destruct (_ && _); injection H as <-; [|exact Hs].
    apply tidy_setExplanation; [exact Hs | apply trim_idem].
Qed.

Lemma checkLineCount_keeps st : tidy st -> tidy (checkLineCount st).
Proof.
  intros Ht. unfold checkLineCount.
  destruct (_ && _); [|exact Ht].
  destruct (50 <? _); [|exact Ht].
  destruct Ht as (_ & _ & He).
  destruct (negb _); repeat split; simpl; auto.
  apply trim_tooLongExplanation.
Qed.

Lemma fallbackSql_tidy response st : tidy st -> tidy (fallbackSql response st).
Proof.
  intros Ht. unfold fallbackSql.
  destruct (_ && _); [|exact Ht].
  destruct (_ && _); [|exact Ht].
  apply tidy_setSql; [exact Ht | apply trim_idem].
Qed.

(** The variables at line 236: in step, and the code is the detected one or
    NOT_SQL_REQUEST. *)
Lemma extracted_keeps response st :
  extracted response = Done st ->
  tidy st /\ keptOrNotSql (detected response) (l_code st).
Proof.
  unfold extracted, detected. intros H.
  set (st0 := detectCode codePatterns (trim response) initial) in *.
  assert (H0 : tidy st0) by (apply tidy_detectCode, tidy_initial).
  destruct (extractSql (trim response) st0) as [st1|] eqn:E1; simpl in H;
    [|discriminate].
  destruct (@extractSql_keeps _ _ _ E1 H0) as (H1 & Hc1).
  destruct (extractExplanation (trim response) st1) as [st2|] eqn:E2;
    simpl in H; [|discriminate].
  pose proof (@extractExplanation_keeps _ _ _ E2 H1) as H2.
  pose proof (@notSqlRequestPass_keeps _ _ _ H H2) as H3.
  split; [exact H3|].
  rewrite (@notSqlRequestPass_code _ _ _ H), (@extractExplanation_code _ _ _ E2).
  exact Hc1.
Qed.

(** What [parseAIResponse] returns is [respond] of variables in step. *)
Lemma parseAIResponse_tidy response r :
  parseAIResponse response = Done r ->
  exists st, r = respond st /\ tidy st.
Proof.
  unfold parseAIResponse. intros H.
  destruct (extracted response) as [st|] eqn:E; simpl in H; [|discriminate].
  injection H as <-. eexists; split; [reflexivity|].
  apply checkLineCount_keeps, fallbackSql_tidy, checkLineCount_keeps.
  exact (proj1 (@extracted_keeps _ _ E)).
Qed.

Lemma checkLineCount_within st :
  l_code (checkLineCount st) = SUCCESS ->
  List.length (nonBlankLines (l_sql (checkLineCount st))) <= 50.
Proof.
  unfold checkLineCount.
  destruct (truthy (l_sql st)) eqn:Et; cbn [andb].
  - destruct (AICode_eqb (l_code st) SUCCESS) eqn:Ec.
    + destruct (50 <? _) eqn:En.
      * destruct (negb _); simpl; discriminate.
      * intros _. apply Nat.ltb_ge in En. exact En.
    + intros H. apply AICode_eqb_eq in H. congruence.
  - intros _. apply truthy_nil_iff in Et. rewrite Et.
    rewrite nonBlankLines_nil. simpl. lia.
Qed.

(** What [parseAIResponse] returns is [respond] of the variables after the
    last line count, and they are in step. *)
Lemma parseAIResponse_final response :
  exists st,
    parseAIResponse response = Done (respond (checkLineCount st))
    /\ tidy (checkLineCount st)
    /\ (l_code (checkLineCount st) = detected response
        \/ l_code (checkLineCount st) = NOT_SQL_REQUEST
        \/ (detected response = SUCCESS
            /\ l_code (checkLineCount st) = COMPLEX_QUERY)).
Proof.
  destruct (extracted_done response) as [st E].
  exists (fallbackSql response (checkLineCount st)).
  split; [unfold parseAIResponse; rewrite E; reflexivity|].
  destruct (@extracted_keeps _ _ E) as (Ht & Hk).
  split.
  { apply checkLineCount_keeps, fallbackSql_tidy, checkLineCount_keeps.
    exact Ht. }
  destruct (checkLineCount_code
              (fallbackSql response (checkLineCount st))) as [H|[H H']];
    rewrite fallbackSql_code in H;
    destruct (checkLineCount_code st) as [H1|[H1 H2]];
    destruct Hk as [Hk|Hk]; try congruence.
  - left. congruence.
  - right; left. congruence.
  - right; right. split; congruence.
  - right; right. split; congruence.
Qed.

(** ** Properties of every response of the classifier *)

(** X1: the message of a response is always the prepared message of its
    code, [getCodeMessage (code r)], whatever stage set the code. *)
Theorem X1_message_is_the_message_of_the_code response :
  exists r, parseAIResponse response = Done r
            /\ message r = getCodeMessage (code r).
Proof.
  destruct (parseAIResponse_final response) as (st & E & (Hm & _) & _).
  eexists; split; [exact E|]. exact Hm.
Qed.

(** X2: a response with code SUCCESS never carries more than 50 non-blank
    lines of SQL. *)
Theorem X2_success_within_the_ceiling response :
  exists r, parseAIResponse response = Done r
            /\ (code r = SUCCESS ->
                forall s, sql r = Some s ->
                List.length (nonBlankLines s) <= 50).
Proof.
  destruct (parseAIResponse_final response) as (st & E & _ & _).
  eexists; split; [exact E|]. simpl. intros Hc s.
  rewrite Hc. simpl. unfold orUndefined.
  destruct (truthy _); [|discriminate].
  intros H; injection H as <-. apply checkLineCount_within. exact Hc.
Qed.

Lemma X2_fifty_lines_pass :
  exists r, parseAIResponse (successWithLines 50) = Done r
            /\ code r = SUCCESS
            /\ exists s, sql r = Some s
                         /\ List.length (nonBlankLines s) <= 50.
Proof.
  destruct (X2_success_within_the_ceiling (successWithLines 50))
    as (r & E & H).
  exists r. split; [exact E|].
  assert (E' : exists r', parseAIResponse (successWithLines 50) = Done r'
                          /\ code r' = SUCCESS
                          /\ sql r' = Some (join [nl]
                                             (List.repeat (str "SELECT 1") 50)))
    by (eexists; vm_compute; repeat split).
  destruct E' as (r' & E' & Hc & Hs). rewrite E in E'. injection E' as <-.
  split; [exact Hc|]. eexists. split; [exact Hs|]. exact (H Hc _ Hs).
Defined.

(** X3: the optional fields are never blank. [sql], when present, is the
    empty string exactly for the codes NOT_SQL_REQUEST and COMPLEX_QUERY,
    and otherwise a non-empty text without spaces around it; [explanation],
    when present, is a non-empty text without spaces around it. *)
Theorem X3_fields_are_trimmed_and_not_blank response :
  exists r, parseAIResponse response = Done r
    /\ (forall s, sql r = Some s ->
          (s = [] /\ (code r = NOT_SQL_REQUEST \/ code r = COMPLEX_QUERY))
          \/ (s <> [] /\ trim s = s
              /\ code r <> NOT_SQL_REQUEST /\ code r <> COMPLEX_QUERY))
    /\ (forall e, explanation r = Some e -> e <> [] /\ trim e = e).
Proof.
  destruct (parseAIResponse_final response) as (st & E & (_ & Hs & He) & _).
  eexists; split; [exact E|]. set (st' := checkLineCount st) in *.
  split.
  - intros s. simpl.
    destruct (AICode_eqb (l_code st') NOT_SQL_REQUEST) eqn:E1.
    { apply AICode_eqb_eq in E1. intros H; injection H as <-. auto. }
    destruct (AICode_eqb (l_code st') COMPLEX_QUERY) eqn:E2.
    { apply AICode_eqb_eq in E2. intros H; injection H as <-. auto. }
    simpl. unfold orUndefined. destruct (truthy (l_sql st')) eqn:Et;
      [|discriminate].
    intros H; injection H as <-. right.
    split; [intros C; rewrite C in Et; discriminate|].
    split; [exact Hs|].
    split; intros C; apply AICode_eqb_eq in C; congruence.
  - intros e. simpl. unfold orUndefined.
    destruct (truthy (l_explanation st')) eqn:Et; [|discriminate].
    intros H; injection H as <-.
    split; [intros C; rewrite C in Et; discriminate | exact He].
Qed.

Lemma X3_fenced_sql_is_trimmed :
  exists r,
    parseAIResponse
      (lines ["CODE:SUCCESS"; "```sql"; "   SELECT 1;  "; "```";
              "EXPLANATION:   one row  "]%string) = Done r
    /\ sql r = Some (str "SELECT 1;")
    /\ explanation r = Some (str "one row").
Proof.
  destruct (X3_fields_are_trimmed_and_not_blank
              (lines ["CODE:SUCCESS"; "```sql"; "   SELECT 1;  "; "```";
                      "EXPLANATION:   one row  "]%string))
    as (r & E & _).
  exists r. split; [exact E|].
  assert (E' : exists r',
             parseAIResponse
               (lines ["CODE:SUCCESS"; "```sql"; "   SELECT 1;  "; "```";
                       "EXPLANATION:   one row  "]%string) = Done r'
             /\ sql r' = Some (str "SELECT 1;")
             /\ explanation r' = Some (str "one row"))
    by (eexists; vm_compute; repeat split).
  destruct E' as (r' & E' & H). rewrite E in E'. injection E' as <-. exact H.
Defined.

(** X4: the code of a response is the code the markers gave, or
    NOT_SQL_REQUEST, or COMPLEX_QUERY in place of SUCCESS; no other code is
    ever put in place of a detected one. *)
Theorem X4_only_two_overrides response :
  exists r, parseAIResponse response = Done r
    /\ (code r = detected response
        \/ code r = NOT_SQL_REQUEST
        \/ (detected response = SUCCESS /\ code r = COMPLEX_QUERY)).
Proof.
  destruct (parseAIResponse_final response) as (st & E & _ & H).
  eexists; split; [exact E|]. exact H.
Qed.

(** X5: a response of spaces and line breaks only ([trim] leaves nothing)
    is answered like the empty one: SUCCESS, no [sql], no [explanation]. *)
Theorem X5_blank_response response :
  trim response = [] ->
  parseAIResponse response =
  Done {| code := SUCCESS; message := CODE_MESSAGES SUCCESS;
          sql := None; explanation := None |}.
Proof.
  intros H. unfold parseAIResponse, extracted. rewrite H.
  replace (detectCode codePatterns [] initial) with initial
    by (vm_compute; reflexivity).
  replace (extractSql [] initial) with (Done initial)
    by (vm_compute; reflexivity).
  cbn [bind].
  replace (extractExplanation [] initial) with (Done initial)
    by (vm_compute; reflexivity).
  cbn [bind].
  replace (notSqlRequestPass response initial) with (Done initial)
    by reflexivity.
  cbn [bind].
  replace (checkLineCount initial) with initial by reflexivity.
  replace (fallbackSql response initial) with initial
    by (unfold fallbackSql; rewrite H; reflexivity).
  reflexivity.
Qed.

Lemma X5_spaces_and_line_breaks :
  parseAIResponse (32 :: 10 :: 9 :: 13 :: 160 :: 8232 :: [32])%N =
  Done {| code := SUCCESS; message := CODE_MESSAGES SUCCESS;
          sql := None; explanation := None |}.
Proof. apply X5_blank_response. reflexivity. Defined.

(** ** A code marker at the start *)

(** The first pattern reads the code off a reply that starts with
    [CODE:] and a code name, whatever follows. *)
Lemma detectCode_code_marker c rest :
  detectCode codePatterns (str ("CODE:" ++ codeName c) ++ rest) initial
  = setMessage (CODE_MESSAGES c) (setCode c initial).
Proof. destruct c; vm_compute; reflexivity. Qed.

(** A pattern that starts with [^] matches at index 0 or nowhere. *)
Lemma search_anchored re r :
  tree re = RSeq RBol r ->
  forall s p i, 0 < i -> search re p s i = None.
Proof.
  intros Ht s. induction s as [|c s IH]; intros p i Hi; simpl;
    rewrite Ht; simpl;
    destruct (Nat.eqb_neq i 0) as [_ Hn];
    rewrite Hn by lia; [reflexivity|].
  apply IH. lia.
Qed.

Lemma exec_anchored_none re r s :
  tree re = RSeq RBol r ->
  rmatch (flag re) (tree re) {| prev := None; rest := s; pos := 0 |} []
    (fun cur' caps' => Some (cur', caps')) = None ->
  exec re s = None.
Proof.
  intros Ht H. unfold exec. destruct s as [|c s]; simpl; rewrite H;
    [reflexivity|].
  apply (search_anchored re Ht). lia.
Qed.

Lemma detectCode_skip pattern patterns trimmedResponse st :
  exec pattern trimmedResponse = None ->
  detectCode (pattern :: patterns) trimmedResponse st
  = detectCode patterns trimmedResponse st.
Proof. intros H. simpl. rewrite H. reflexivity. Qed.

(** The second pattern reads the code off a reply that starts with a code
    name and a colon, whatever follows. *)
Lemma detectCode_name_marker c rest :
  detectCode codePatterns (str (codeName c ++ ":") ++ rest) initial
  = setMessage (CODE_MESSAGES c) (setCode c initial).
Proof.
  unfold codePatterns.
  rewrite detectCode_skip
    by (eapply exec_anchored_none;
        [reflexivity | destruct c; vm_compute; reflexivity]).
  destruct c; vm_compute; reflexivity.
Qed.

(** Once the code stands at NOT_SQL_REQUEST after the SQL extraction, the
    response carries it, with the empty string as [sql]. *)
Lemma not_sql_request_stays response st :
  extractSql (trim response)
    (detectCode codePatterns (trim response) initial) = Done st ->
  l_code st = NOT_SQL_REQUEST ->
  exists r, parseAIResponse response = Done r
            /\ code r = NOT_SQL_REQUEST /\ sql r = Some []
            /\ message r = CODE_MESSAGES NOT_SQL_REQUEST.
Proof.
  intros E Hc.
  destruct (extractExplanation_done (trim response) st) as [s2 E2].
  destruct (notSqlRequestPass_done response s2) as [s3 E3].
  assert (Ex : extracted response = Done s3).
  { unfold extracted. rewrite E; simpl. rewrite E2; simpl. exact E3. }
  assert (Hc3 : l_code s3 = NOT_SQL_REQUEST).
  { rewrite (@notSqlRequestPass_code _ _ _ E3).
    rewrite (@extractExplanation_code _ _ _ E2). exact Hc. }
  destruct (@final_code _ _ Ex) as (r & Er & Hr).
  { rewrite Hc3. discriminate. }
  exists r. rewrite Hc3 in Hr. split; [exact Er|]. split; [exact Hr|].
  destruct (parseAIResponse_tidy _ Er) as (st' & -> & (Hm & _)).
  split; [apply respond_clears; left; exact Hr|].
  simpl in *. rewrite Hm, Hr. reflexivity.
Qed.

(** X6: a reply that starts (spaces aside) with [CODE:NAME] or with [NAME:]
    for one of the seven codes has that code detected, whatever follows; the
    response then carries that code, or NOT_SQL_REQUEST, or COMPLEX_QUERY
    when the name is SUCCESS. *)
Theorem X6_marker_at_the_start c response :
  startsWithMarker c response ->
  detected response = c
  /\ exists r, parseAIResponse response = Done r
       /\ (code r = c \/ code r = NOT_SQL_REQUEST
           \/ (c = SUCCESS /\ code r = COMPLEX_QUERY)).
Proof.
  intros (rest & H).
  assert (Hd : detected response = c).
  { unfold detected. destruct H as [H|H]; rewrite H.
    - rewrite detectCode_code_marker. reflexivity.
    - rewrite detectCode_name_marker. reflexivity. }
  split; [exact Hd|].
  destruct (parseAIResponse_final response) as (st & E & _ & Hc).
  rewrite Hd in Hc. eexists; split; [exact E|]. exact Hc.
Qed.

Lemma X6_no_data_marker :
  detected (str "  NO_DATA: nothing matched") = NO_DATA
  /\ exists r, parseAIResponse (str "  NO_DATA: nothing matched") = Done r
       /\ (code r = NO_DATA \/ code r = NOT_SQL_REQUEST
           \/ (NO_DATA = SUCCESS /\ code r = COMPLEX_QUERY)).
Proof.
  apply X6_marker_at_the_start.
  exists (str " nothing matched"). right. reflexivity.
Defined.

Lemma detectCode_not_sql_request_marker response :
  startsWithMarker NOT_SQL_REQUEST response ->
  detectCode codePatterns (trim response) initial
  = setMessage (CODE_MESSAGES NOT_SQL_REQUEST)
      (setCode NOT_SQL_REQUEST initial).
Proof.
  intros (rest & [H|H]); rewrite H.
  - apply (detectCode_code_marker NOT_SQL_REQUEST).
  - apply (detectCode_name_marker NOT_SQL_REQUEST).
Qed.

(** X7: a reply that starts (spaces aside) with [CODE:NOT_SQL_REQUEST] or
    with [NOT_SQL_REQUEST:] is answered with code NOT_SQL_REQUEST, its
    message and the empty string as [sql], whatever follows, a fenced SQL
    block included. *)
Theorem X7_not_sql_request_marker_wins response :
  startsWithMarker NOT_SQL_REQUEST response ->
  exists r, parseAIResponse response = Done r
            /\ code r = NOT_SQL_REQUEST /\ sql r = Some []
            /\ message r = CODE_MESSAGES NOT_SQL_REQUEST.
Proof.
  intros H.
  apply (@not_sql_request_stays response
           (setSql [] (setMessage (CODE_MESSAGES NOT_SQL_REQUEST)
                         (setCode NOT_SQL_REQUEST initial)))).
  - rewrite (detectCode_not_sql_request_marker H). reflexivity.
  - reflexivity.
Qed.

Lemma X7_marker_before_a_fenced_block :
  exists r,
    parseAIResponse
      (lines ["CODE:NOT_SQL_REQUEST"; "```sql"; "DROP TABLE students;";
              "```"]%string) = Done r
    /\ code r = NOT_SQL_REQUEST /\ sql r = Some []
    /\ message r = CODE_MESSAGES NOT_SQL_REQUEST.
Proof.
  apply X7_not_sql_request_marker_wins.
  exists (lines [EmptyString; "```sql"; "DROP TABLE students;"; "```"]%string).
  left. reflexivity.
Defined.

(** ** More on the safety gate *)

Lemma find_none_forall {A} (f : A -> bool) l :
  (forall x, In x l -> f x = false) -> find f l = None.
Proof.
  induction l as [|a l IH]; intros H; simpl; [reflexivity|].
  rewrite (H a (or_introl eq_refl)). apply IH. intros x Hx.
  apply H. right. exact Hx.
Qed.

Lemma validateNode_empty_list sql node :
  validateNode sql (Some []) node = validateNode sql None node.
Proof. reflexivity. Qed.

Lemma validateNodes_empty_list sql nodes :
  validateNodes sql (Some []) nodes = validateNodes sql None nodes.
Proof.
  induction nodes as [|node nodes IH]; simpl; [reflexivity|].
  rewrite validateNode_empty_list.
  destruct (validateNode sql None node) as [[e|]|]; simpl; auto.
Qed.

(** X8: an empty table list is no table list: [validateSql] gives the same
    result for [[]] as without the second argument, on every text and with
    every parser. *)
Theorem X8_empty_list_is_no_list
    (astify : jsstring -> jsval + jsstring) sql :
  validateSql astify sql (Some []) = validateSql astify sql None.
Proof.
  unfold validateSql.
  destruct (negb (truthy sql)); [reflexivity|].
  destruct (_ =? 0); [reflexivity|].
  destruct (parseSqlToAst astify sql) as [ast|msg]; [|reflexivity].
  rewrite validateNodes_empty_list. reflexivity.
Qed.

Lemma trimStart_spaces s : forallb isSpace s = true -> trimStart s = [].
Proof.
  induction s as [|c s IH]; simpl; [reflexivity|].
  destruct (isSpace c); simpl; [exact IH | discriminate].
Qed.

Lemma trim_spaces s : forallb isSpace s = true -> trim s = [].
Proof. intros H. unfold trim. rewrite (@trimStart_spaces s H). reflexivity. Qed.

Lemma splitOn_spaces sep s :
  forallb (fun c => isSpace c || sep c) s = true ->
  Forall (fun piece => forallb isSpace piece = true) (splitOn sep s).
Proof.
  induction s as [|c s IH]; simpl.
  - intros _. repeat constructor.
  - rewrite andb_true_iff. intros [Hc Hs]. specialize (IH Hs).
    destruct (sep c).
    + constructor; [reflexivity | exact IH].
    + rewrite orb_false_r in Hc.
      destruct (splitOn sep s) as [|l ls].
      * repeat constructor. simpl. rewrite Hc. reflexivity.
      * inversion IH; subst. constructor; [|assumption].
        simpl. rewrite Hc. assumption.
Qed.

Lemma fragments_blank sql : blankSql sql -> fragments sql = [].
Proof.
  intros H. unfold fragments, split.
  pose proof (@splitOn_spaces (N.eqb 59) sql H) as Hp.
  induction Hp as [|piece pieces Hpiece _ IH]; simpl; [reflexivity|].
  rewrite (@trim_spaces piece Hpiece). exact IH.
Qed.

(** X9: a text made of spaces, line breaks and semicolons only is rejected
    with "Empty SQL" and the parser is not consulted: the result is the same
    for every parser and every table list. *)
Theorem X9_blank_sql_is_empty
    (astify : jsstring -> jsval + jsstring) allowedTables sql :
  blankSql sql ->
  validateSql astify sql allowedTables = Done (Rejected (str "Empty SQL")).
Proof.
  intros H. unfold validateSql. rewrite (@fragments_blank sql H).
  destruct (negb (truthy sql)); reflexivity.
Qed.

Lemma X9_semicolons_and_spaces :
  validateSql sampleAstify (lines [" ; ;"; ";  "]%string) None
  = Done (Rejected (str "Empty SQL")).
Proof. apply X9_blank_sql_is_empty. reflexivity. Defined.

(** A statement of an allow-listed kind is an object: its tables can be
    read. *)
Lemma allowedKind_extracts node type :
  statementType node = Done type ->
  arrayIncludes type ALLOWED_TYPES = true ->
  exists tablesFound, extractTableNames node = Done tablesFound.
Proof.
  intros Et Hin. unfold statementType in Et. unfold extractTableNames.
  destruct node; simpl in Et; try discriminate;
    try (eexists; reflexivity);
    exfalso; injection Et as <-; vm_compute in Hin; discriminate.
Qed.

Lemma validateNode_justified sql allowedTables node e :
  validateNode sql allowedTables node = Done (Some e) ->
  justified sql allowedTables node e.
Proof.
  unfold validateNode.
  destruct (statementType node) as [type|] eqn:Et; cbn [bind];
    [|discriminate].
  destruct (arrayIncludes type ALLOWED_TYPES) eqn:Ea; cbn [negb].
  2:{ intros H; injection H as <-. left. exists type.
      split; [exact Et|]. split; [|reflexivity].
      intros C. apply arrayIncludes_In in C. congruence. }
  destruct (find _ BLOCKED_PATTERNS) as [b|] eqn:Eb.
  { intros H; injection H as <-. right; left. apply find_some in Eb.
    exists b. destruct Eb. auto. }
  destruct allowedTables as [allowed|]; [|discriminate].
  destruct (0 <? _); [|discriminate].
  destruct (extractTableNames node) as [tablesFound|] eqn:Ex; cbn [bind];
    [|discriminate].
  destruct (find _ tablesFound) as [table|] eqn:Ef; [|discriminate].
  intros H; injection H as <-. right; right. apply find_some in Ef.
  destruct Ef as [Hin Hnot]. exists allowed, table.
  split; [reflexivity|]. split; [|reflexivity].
  exists tablesFound. split; [exact Ex|]. split; [exact Hin|].
  apply negb_true_iff in Hnot. intros C. apply arrayIncludes_In in C.
  congruence.
Qed.

Lemma validateNodes_justified sql allowedTables nodes e :
  validateNodes sql allowedTables nodes = Done (Some e) ->
  exists node, In node nodes /\ justified sql allowedTables node e.
Proof.
  induction nodes as [|node nodes IH]; simpl; [discriminate|].
  destruct (validateNode sql allowedTables node) as [[e'|]|] eqn:E;
    cbn [bind]; [| |discriminate].
  - intros H; injection H as <-. exists node. split; [left; reflexivity|].
    apply validateNode_justified. exact E.
  - intros H. destruct (IH H) as (n & Hin & Hj). exists n. auto.
Qed.

(** X10: every rejection has its cause. The error is "Empty SQL" and the
    text has no fragment; or the parser threw and the error is its message
    after "SQL parse error: "; or the error is the one of a statement of the
    tree: its kind is off the allow-list, or a blocked pattern does match
    the text, or the statement does reference a table that is not on the
    list. *)
Theorem X10_every_rejection_has_its_cause
    (astify : jsstring -> jsval + jsstring) sql allowedTables e :
  validateSql astify sql allowedTables = Done (Rejected e) ->
  (e = str "Empty SQL" /\ fragments sql = [])
  \/ (exists msg, astify sql = inr msg
                  /\ e = str "SQL parse error: " ++ msg)
  \/ (exists ast node,
        astify sql = inl ast /\ In node (flatten ast)
        /\ justified sql allowedTables node e).
Proof.
  unfold validateSql, parseSqlToAst.
  destruct (truthy sql) eqn:Et; cbn [negb].
  2:{ intros H; injection H as <-. left. apply truthy_nil_iff in Et.
      subst sql. split; reflexivity. }
  destruct (fragments sql) as [|f fs] eqn:Ef; cbn [List.length Nat.eqb].
  { intros H; injection H as <-. left. split; reflexivity. }
  destruct (astify sql) as [ast|msg].
  - destruct (validateNodes sql allowedTables (flatten ast)) as [[e'|]|]
      eqn:Ev; cbn [bind]; try discriminate.
    intros H; injection H as <-. right; right.
    destruct (validateNodes_justified _ _ _ Ev) as (node & Hin & Hj).
    exists ast, node. auto.
  - intros H; injection H as <-. right; left. exists msg. auto.
Qed.

Lemma X10_join_rejection_cause :
  (tableError (str "unauthorized") [str "students"] = str "Empty SQL"
   /\ fragments joinQuery = [])
  \/ (exists msg, sampleAstify joinQuery = inr msg
                  /\ tableError (str "unauthorized") [str "students"]
                     = str "SQL parse error: " ++ msg)
  \/ (exists ast node,
        sampleAstify joinQuery = inl ast /\ In node (flatten ast)
        /\ justified joinQuery (Some [str "students"]) node
             (tableError (str "unauthorized") [str "students"])).
Proof.
  apply (@X10_every_rejection_has_its_cause sampleAstify joinQuery
           (Some [str "students"])).
  vm_compute. reflexivity.
Defined.

Lemma validateNode_returns sql allowedTables node type :
  statementType node = Done type ->
  exists r, validateNode sql allowedTables node = Done r.
Proof.
  intros Et. unfold validateNode. rewrite Et. cbn [bind].
  destruct (arrayIncludes type ALLOWED_TYPES) eqn:Ea; cbn [negb];
    [|eexists; reflexivity].
  destruct (find _ BLOCKED_PATTERNS); [eexists; reflexivity|].
  destruct allowedTables as [allowed|]; [|eexists; reflexivity].
  destruct (0 <? _); [|eexists; reflexivity].
  destruct (allowedKind_extracts node Et Ea) as [tablesFound Ex].
  rewrite Ex. cbn [bind]. destruct (find _ tablesFound); eexists; reflexivity.
Qed.

(** X11: [validateSql] does not throw on a tree whose statements have
    readable types (no statement is [null] or [undefined], and a truthy
    [type] is a string): it returns a result, whatever else the tree
    holds. *)
Theorem X11_no_throw_on_readable_types
    (astify : jsstring -> jsval + jsstring) sql allowedTables :
  (forall ast, astify sql = inl ast -> readableTypes ast) ->
  exists result, validateSql astify sql allowedTables = Done result.
Proof.
  intros H. unfold validateSql, parseSqlToAst.
  destruct (negb (truthy sql)); [eexists; reflexivity|].
  destruct (_ =? 0); [eexists; reflexivity|].
  destruct (astify sql) as [ast|msg]; [|eexists; reflexivity].
  specialize (H ast eq_refl). unfold readableTypes in H.
  assert (Hn : exists r,
             validateNodes sql allowedTables (flatten ast) = Done r).
  { induction H as [|node nodes (type & Et) _ IH]; simpl;
      [eexists; reflexivity|].
    destruct (validateNode_returns sql allowedTables node Et) as [[e|] E];
      rewrite E; cbn [bind]; [eexists; reflexivity | exact IH]. }
  destruct Hn as [[e|] E]; rewrite E; eexists; reflexivity.
Qed.

Lemma X11_sample_parser_does_not_throw :
  exists result,
    validateSql sampleAstify joinQuery (Some [str "a"]) = Done result.
Proof.
  apply X11_no_throw_on_readable_types.
  intros ast H. vm_compute in H. injection H as <-.
  repeat constructor; eexists; reflexivity.
Defined.

Lemma validateNode_more_tables sql allowed more node :
  allowed <> [] -> incl allowed more ->
  validateNode sql (Some allowed) node = Done None ->
  validateNode sql (Some more) node = Done None.
Proof.
  intros Hne Hincl. unfold validateNode.
  destruct (statementType node) as [type|]; cbn [bind]; [|discriminate].
  destruct (negb _); [discriminate|].
  destruct (find _ BLOCKED_PATTERNS); [discriminate|].
  destruct allowed as [|a allowed]; [contradiction|].
  assert (Hm : (0 <? List.length more) = true).
  { destruct more; [|reflexivity]. destruct (Hincl a (or_introl eq_refl)). }
  rewrite Hm. cbn [List.length Nat.ltb Nat.leb].
  destruct (extractTableNames node) as [tablesFound|]; cbn [bind];
    [|discriminate].
  destruct (find _ tablesFound) as [t|] eqn:Ef; [discriminate|].
  intros _. rewrite find_none_forall; [reflexivity|].
  intros x Hx. pose proof (find_none _ _ Ef x Hx) as Hf.
  apply negb_false_iff in Hf. apply negb_false_iff.
  apply arrayIncludes_In. apply Hincl. apply arrayIncludes_In. exact Hf.
Qed.

Lemma validateNode_no_tables sql allowedTables node :
  validateNode sql allowedTables node = Done None ->
  validateNode sql None node = Done None.
Proof.
  unfold validateNode.
  destruct (statementType node) as [type|]; cbn [bind]; [|discriminate].
  destruct (negb _); [discriminate|].
  destruct (find _ BLOCKED_PATTERNS); [discriminate|]. reflexivity.
Qed.

(** X12: a longer table list never turns an accepted text into a rejected
    one: what is accepted with a non-empty list is accepted, with the same
    statements, with every list that includes it, and without a list. *)
Theorem X12_more_tables_accept_more
    (astify : jsstring -> jsval + jsstring) sql allowed more statements :
  allowed <> [] -> incl allowed more ->
  validateSql astify sql (Some allowed) = Done (Ok statements) ->
  validateSql astify sql (Some more) = Done (Ok statements)
  /\ validateSql astify sql None = Done (Ok statements).
Proof.
  intros Hne Hincl. unfold validateSql.
  destruct (negb (truthy sql)); [discriminate|].
  destruct (_ =? 0); [discriminate|].
  destruct (parseSqlToAst astify sql) as [ast|msg]; [|discriminate].
  assert (Hn : validateNodes sql (Some allowed) (flatten ast) = Done None ->
               validateNodes sql (Some more) (flatten ast) = Done None
               /\ validateNodes sql None (flatten ast) = Done None).
  { induction (flatten ast) as [|node nodes IH]; simpl; [auto|].
    destruct (validateNode sql (Some allowed) node) as [[e|]|] eqn:E;
      cbn [bind]; try discriminate.
    rewrite (@validateNode_more_tables sql _ more node Hne Hincl E).
    rewrite (@validateNode_no_tables sql _ node E). exact IH. }
  destruct (validateNodes sql (Some allowed) (flatten ast)) as [[e|]|];
    cbn [bind]; try discriminate.
  intros H; injection H as <-.
  destruct (Hn eq_refl) as [-> ->]. split; reflexivity.
Qed.

Lemma X12_students_with_more_tables :
  validateSql sampleAstify studentsQuery
    (Some [str "orders"; str "students"]) = Done (Ok studentsAst)
  /\ validateSql sampleAstify studentsQuery None = Done (Ok studentsAst).
Proof.
  apply (@X12_more_tables_accept_more sampleAstify studentsQuery
           [str "students"] [str "orders"; str "students"] studentsAst).
  - discriminate.
  - intros x [<-|[]]. right; left; reflexivity.
  - vm_compute. reflexivity.
Defined.

(** A literal matches, letter case aside, the start of what is left. *)
Lemma rmatch_literal fl l :
  forall w b p i caps k,
    map (canon fl) w = map (canon fl) l ->
    exists cur',
      rest cur' = b
      /\ rmatch fl (fold_right (fun c r => RSeq (RSet (CChar c)) r) REmpty l)
           {| prev := p; rest := w ++ b; pos := i |} caps k
         = k cur' caps.
Proof.
  induction l as [|c0 l IH]; intros [|c w] b p i caps k Hw;
    try discriminate.
  - eexists. split; [|reflexivity]. reflexivity.
  - simpl in Hw. injection Hw as Hc Hw.
    destruct (IH w b (Some c) (S i) caps k Hw) as (cur' & Hr & E).
    exists cur'. split; [exact Hr|].
    simpl. rewrite Hc, N.eqb_refl. exact E.
Qed.

(** A match somewhere in the text is found by the search. *)
Lemma search_finds re a :
  forall s p i,
    (forall q, rmatch (flag re) (tree re)
                 {| prev := q; rest := s; pos := i + List.length a |} []
                 (fun cur' caps' => Some (cur', caps')) <> None) ->
    search re p (a ++ s) i <> None.
Proof.
  induction a as [|c a IH]; intros s p i H.
  - specialize (H p). simpl in H. rewrite Nat.add_0_r in H.
    destruct s; simpl;
      destruct (rmatch _ _ _ _ _) as [[cur' caps']|];
      try discriminate; contradiction.
  - simpl. destruct (rmatch _ _ _ _ _) as [[cur' caps']|]; [discriminate|].
    apply IH. intros q. specialize (H q). simpl in H.
    rewrite Nat.add_succ_r in H. exact H.
Qed.

Lemma test_backslashCopy a w b :
  toUpperCase w = str "\COPY" -> test backslashCopy (a ++ w ++ b) = true.
Proof.
  intros Hw. unfold test, exec.
  destruct (search backslashCopy None (a ++ w ++ b) 0) eqn:E;
    [reflexivity|].
  exfalso. revert E. apply search_finds. intros q.
  destruct (@rmatch_literal flags_i (str "\copy") w b q
              (0 + List.length a) []
              (fun cur' caps' => Some (cur', caps'))) as (cur' & _ & E).
  { exact Hw. }
  change (tree backslashCopy)
    with (fold_right (fun c r => RSeq (RSet (CChar c)) r) REmpty
            (str "\copy")).
  change (flag backslashCopy) with flags_i.
  rewrite E. discriminate.
Qed.

(** X13: a text that holds [\copy] anywhere, in any letter case, matches a
    blocked pattern, and [validateSql] never accepts it with a tree that has
    a statement. *)
Theorem X13_backslash_copy_is_never_accepted
    (astify : jsstring -> jsval + jsstring) allowedTables a w b statements :
  toUpperCase w = str "\COPY" ->
  flatten statements <> [] ->
  test backslashCopy (a ++ w ++ b) = true
  /\ validateSql astify (a ++ w ++ b) allowedTables <> Done (Ok statements).
Proof.
  intros Hw Hne. pose proof (@test_backslashCopy a w b Hw) as Ht.
  split; [exact Ht|].
  intros H. apply validateSql_ok in H. destruct H as [_ Hv].
  apply validateNodes_passed in Hv.
  destruct (flatten statements) as [|node nodes]; [contradiction|].
  inversion Hv as [|? ? Hp _]; subst.
  assert (Hin : In {| pattern := backslashCopy; name := str "\COPY" |}
                   BLOCKED_PATTERNS)
    by (right; right; left; reflexivity).
  pose proof (passed_patterns Hp Hin) as Hf. simpl in Hf.
  rewrite Ht in Hf. discriminate.
Qed.

Lemma X13_mixed_case_copy :
  test backslashCopy (str "SELECT * FROM students; \Copy t FROM 'f'") = true
  /\ validateSql (fun _ => inl studentsAst)
       (str "SELECT * FROM students; \Copy t FROM 'f'") None
     <> Done (Ok studentsAst).
Proof.
  apply (@X13_backslash_copy_is_never_accepted (fun _ => inl studentsAst)
           None (str "SELECT * FROM students; ") (str "\Copy")
           (str " t FROM 'f'") studentsAst).
  - reflexivity.
  - vm_compute. discriminate.
Defined.

(** What the two loops of [extractTableNames] give on plain items. *)
Lemma fromItemTables_plain name item :
  plainFromItem name item -> fromItemTables item = [name].
Proof.
  intros ((props & -> & Ht & Hn) & (props' & E & He)).
  injection E as <-. unfold fromItemTables, has, get. simpl truthyVal.
  simpl isObjectType. cbn [andb]. rewrite Ht, He. simpl.
  destruct name; [contradiction | reflexivity].
Qed.

Lemma tableItemTables_named name item :
  tableNamed name item -> tableItemTables item = [name].
Proof.
  intros (props & -> & Ht & Hn). unfold tableItemTables, has, get.
  simpl truthyVal. simpl isObjectType. cbn [andb]. rewrite Ht. simpl.
  destruct name; [contradiction | reflexivity].
Qed.

Lemma flat_map_named (named : jsstring -> jsval -> Prop) f items names :
  (forall name item, named name item -> f item = [name]) ->
  Forall2 (fun item name => named name item) items names ->
  flat_map f items = names.
Proof.
  intros Hf H. induction H as [|item name items names Hn _ IH]; simpl;
    [reflexivity|].
  rewrite (Hf name item Hn), IH. reflexivity.
Qed.

(** X14: on a statement whose [from] (if any) is an array of objects with
    a non-empty string [table] and no [expr], and whose [table] (if any) is
    an array of objects with a non-empty string [table],
    [extractTableNames] returns the names under [from] and then the names
    under [table], in the order of the tree and with repetitions. *)
Theorem X14_tables_in_tree_order props fromNames tableNames :
  lists plainFromItem (lookup (str "from") props) fromNames ->
  lists tableNamed (lookup (str "table") props) tableNames ->
  extractTableNames (JObj props) = Done (fromNames ++ tableNames).
Proof.
  intros Hf Ht. unfold extractTableNames, has, get. f_equal. f_equal.
  - destruct Hf as [[-> ->] | (items & -> & H)]; [reflexivity|].
    simpl. apply (flat_map_named plainFromItem); [|exact H].
    exact fromItemTables_plain.
  - destruct Ht as [[-> ->] | (items & -> & H)]; [reflexivity|].
    simpl. apply (flat_map_named tableNamed); [|exact H].
    exact tableItemTables_named.
Qed.

Lemma X14_join_tables :
  extractTableNames joinAst = Done ([str "students"; str "unauthorized"] ++ []).
Proof.
  apply (@X14_tables_in_tree_order
           [(str "type", JStr (str "select")); (str "columns", JStr (str "*"));
            (str "from",
             JArr [obj (tableRef "students" (JStr (str "s")));
                   obj (List.app (tableRef "unauthorized" (JStr (str "o")))
                          [("join", JStr (str "INNER JOIN"));
                           ("on", obj [("type", JStr (str "binary_expr"));
                                       ("operator", JStr (str "="));
                                       ("left", columnRef "s" "id");
                                       ("right", columnRef "o" "student_id")])]%string)]);
            (str "where", JNull)]).
  - right. eexists. split; [reflexivity|].
    repeat constructor;
      try (eexists; split; [reflexivity|]; split; [reflexivity|discriminate]);
      eexists; split; reflexivity.
  - left. split; reflexivity.
Defined.

Lemma fragments_truthy sql : fragments sql <> [] -> truthy sql = true.
Proof. destruct sql; [intros H; contradiction H; reflexivity | reflexivity]. Qed.

(** X15: the first statement decides in the order kind, blocked pattern,
    tables. When the text has a fragment and the parser gives a first
    statement whose type can be read: if the kind is off the allow-list the
    error is the one of the kind, whatever the text matches; if the kind is
    on the list and a blocked pattern matches, the error is the one of the
    first such pattern of [BLOCKED_PATTERNS], whatever the table list and
    the other statements. *)
Theorem X15_order_of_the_checks
    (astify : jsstring -> jsval + jsstring)
    sql allowedTables ast node nodes type :
  fragments sql <> [] ->
  astify sql = inl ast ->
  flatten ast = node :: nodes ->
  statementType node = Done type ->
  (~ In type ALLOWED_TYPES ->
   validateSql astify sql allowedTables = Done (Rejected (typeError type)))
  /\ (In type ALLOWED_TYPES ->
      forall b,
        find (fun b => test (pattern b) sql) BLOCKED_PATTERNS = Some b ->
        validateSql astify sql allowedTables
        = Done (Rejected (blockedError (name b)))).
Proof.
  intros Hf Ha Hn Et.
  rewrite (@validateSql_parsed astify sql allowedTables ast
             (fragments_truthy sql Hf) Hf Ha).
  rewrite Hn. cbn [validateNodes]. split.
  - intros Hnot. unfold validateNode. rewrite Et. cbn [bind].
    destruct (arrayIncludes type ALLOWED_TYPES) eqn:Ea; [|reflexivity].
    apply arrayIncludes_In in Ea. contradiction.
  - intros Hin b Hb.
    rewrite (@validateNode_allowedKind sql allowedTables node)
      by (exists type; auto).
    rewrite Hb. reflexivity.
Qed.

Lemma X15_grant_in_a_literal :
  validateSql sampleAstify grantLiteralQuery (Some [str "orders"])
  = Done (Rejected
            (str "Operation 'GRANT' is not allowed in PGlite (browser environment).")).
Proof.
  destruct (@X15_order_of_the_checks sampleAstify grantLiteralQuery
              (Some [str "orders"]) grantLiteralAst grantLiteralAst []
              (str "select")) as [_ H].
  - vm_compute. discriminate.
  - vm_compute. reflexivity.
  - reflexivity.
  - reflexivity.
  - assert (Eb : exists b,
               find (fun b => test (pattern b) grantLiteralQuery)
                    BLOCKED_PATTERNS = Some b
               /\ name b = str "GRANT")
      by (eexists; split; vm_compute; reflexivity).
    destruct Eb as (b & Eb & Hn).
    rewrite (H (or_introl eq_refl) b Eb), Hn. reflexivity.
Defined.

(** ** The two routes *)

(** The three ways through the shared part of the handlers. *)
Lemma interpret_cases content :
  (Routes.truthyOpt content = false
   /\ Routes.interpret content = Done (Routes.emptyData, None))
  \/ exists c parsed,
       content = Some c /\ truthy c = true
       /\ parseAIResponse (trim c) = Done parsed
       /\ ((code parsed = NOT_SQL_REQUEST
            /\ Routes.interpret content
               = Done (Routes.dataOf parsed (Some []), Some []))
           \/ (code parsed <> NOT_SQL_REQUEST
               /\ (exists s, sql parsed = Some s /\ truthy s = true
                             /\ test Routes.sqlIsNotSqlRequest s = true)
               /\ exists e,
                    Routes.interpret content
                    = Done ({| Routes.Data.code := Some NOT_SQL_REQUEST;
                               Routes.Data.message :=
                                 Some (getCodeMessage NOT_SQL_REQUEST);
                               Routes.Data.sql := Some [];
                               Routes.Data.explanation := e;
                               Routes.Data.validated := None |},
                            sql parsed))
           \/ (code parsed <> NOT_SQL_REQUEST
               /\ (forall s, sql parsed = Some s -> truthy s = true ->
                             test Routes.sqlIsNotSqlRequest s = false)
               /\ Routes.interpret content
                  = Done (Routes.dataOf parsed (sql parsed), sql parsed))).
Proof.
  unfold Routes.interpret.
  destruct content as [c|]; simpl Routes.truthyOpt; [|left; auto].
  destruct (truthy c) eqn:Ec; [|left; auto].
  right. destruct (parseAIResponse_done (trim c)) as [parsed E].
  exists c, parsed. rewrite E. cbn [bind].
  split; [reflexivity|]. split; [exact Ec|]. split; [reflexivity|].
  destruct (AICode_eqb (code parsed) NOT_SQL_REQUEST) eqn:En.
  { left. apply AICode_eqb_eq in En. split; [exact En|]. reflexivity. }
  assert (Hn : code parsed <> NOT_SQL_REQUEST).
  { intros C. apply AICode_eqb_eq in C. congruence. }
  right. destruct (sql parsed) as [s|] eqn:Es; simpl Routes.truthyOpt.
  - destruct (truthy s) eqn:Et; cbn [andb].
    + destruct (test Routes.sqlIsNotSqlRequest s) eqn:Ex.
      * left. split; [exact Hn|]. split; [exists s; auto|].
        destruct (exec Routes.explanationInSql s) as [m|] eqn:Em.
        -- destruct (@groupTrim_done Routes.explanationInSql 1 s m
                       eq_refl Em) as [g Eg].
           rewrite Eg. cbn [bind]. eexists; reflexivity.
        -- cbn [bind]. eexists; reflexivity.
      * right. split; [exact Hn|]. split; [|reflexivity].
        intros s' H _. injection H as <-. exact Ex.
    + right. split; [exact Hn|]. split; [|reflexivity].
      intros s' H Ht. injection H as <-. congruence.
  - right. split; [exact Hn|]. split; [|reflexivity]. discriminate.
Qed.

(** What the classifier guarantees of a response, in one place. *)
Lemma parsed_facts response parsed :
  parseAIResponse response = Done parsed ->
  message parsed = getCodeMessage (code parsed)
  /\ (code parsed = SUCCESS -> forall s, sql parsed = Some s ->
        List.length (nonBlankLines s) <= 50).
Proof.
  intros E.
  destruct (parseAIResponse_final response) as (st & E' & (Hm & _) & _).
  rewrite E in E'. injection E' as ->. split; [exact Hm|].
  simpl. intros Hc s. rewrite Hc. simpl. unfold orUndefined.
  destruct (truthy _); [|discriminate].
  intros H; injection H as <-. apply checkLineCount_within. exact Hc.
Qed.

(** X16: the shared part of the two handlers never throws, and the response
    data it builds from a reply keep the promise the classifier alone does
    not: the message is the one of the code, [sql] is always a string, and
    it is the empty string whenever the code is not SUCCESS. Without a reply
    the data stay empty. *)
Theorem X16_response_data_sql_only_for_success content :
  exists data sql,
    Routes.interpret content = Done (data, sql)
    /\ (Routes.truthyOpt content = false ->
        data = Routes.emptyData /\ sql = None)
    /\ (Routes.truthyOpt content = true ->
        exists c text,
          Routes.Data.code data = Some c
          /\ Routes.Data.message data = Some (getCodeMessage c)
          /\ Routes.Data.sql data = Some text
          /\ (c <> SUCCESS -> text = [])).
Proof.
  destruct (interpret_cases content)
    as [[Hc E] | (c & parsed & -> & Ht & Ep & H)].
  - exists Routes.emptyData, None. split; [exact E|].
    split; [auto | congruence].
  - destruct (parsed_facts _ Ep) as [Hm _].
    destruct H as [[Hn E] | [(Hn & _ & e & E) | (Hn & _ & E)]];
      rewrite E; eexists _, _; (split; [reflexivity|]);
      (split; [simpl; congruence|]); intros _.
    + exists NOT_SQL_REQUEST, []. simpl. rewrite Hn, Hm, Hn. auto.
    + exists NOT_SQL_REQUEST, []. simpl. auto.
    + exists (code parsed). simpl. rewrite Hm.
      destruct (AICode_eqb (code parsed) SUCCESS) eqn:Es.
      * eexists. repeat split. intros C. apply AICode_eqb_eq in Es.
        contradiction.
      * exists []. auto.
Qed.

Lemma X16_schema_mismatch_data :
  exists data sql,
    Routes.interpret (Some schemaMismatchReply) = Done (data, sql)
    /\ Routes.Data.code data = Some SCHEMA_MISMATCH
    /\ Routes.Data.sql data = Some [].
Proof.
  destruct (X16_response_data_sql_only_for_success (Some schemaMismatchReply))
    as (data & sql & E & _ & H).
  exists data, sql. split; [exact E|].
  destruct (H eq_refl) as (c & text & Hc & _ & Hs & Hn).
  assert (E' : exists sql',
             Routes.interpret (Some schemaMismatchReply)
             = Done ({| Routes.Data.code := Some SCHEMA_MISMATCH;
                        Routes.Data.message :=
                          Some (CODE_MESSAGES SCHEMA_MISMATCH);
                        Routes.Data.sql := Some [];
                        Routes.Data.explanation :=
                          Some (str "No invoices table in this schema.");
                        Routes.Data.validated := None |}, sql'))
    by (eexists; vm_compute; reflexivity).
  destruct E' as (sql' & E'). rewrite E in E'. injection E' as -> ->.
  split; reflexivity.
Defined.

Lemma sqlIsNotSqlRequest_nil : test Routes.sqlIsNotSqlRequest [] = false.
Proof. vm_compute. reflexivity. Qed.

(** X17: in the response data, a SQL text under code SUCCESS never starts
    with the line NOT_SQL_REQUEST and never has more than 50 non-blank
    lines; when it is not empty it is the very text that is handed to
    [validateSql]. *)
Theorem X17_success_sql_in_the_response_data content :
  exists data sql,
    Routes.interpret content = Done (data, sql)
    /\ (Routes.Data.code data = Some SUCCESS ->
        forall text, Routes.Data.sql data = Some text ->
          test Routes.sqlIsNotSqlRequest text = false
          /\ List.length (nonBlankLines text) <= 50
          /\ (text <> [] -> sql = Some text)).
Proof.
  destruct (interpret_cases content)
    as [[Hc E] | (c & parsed & -> & Ht & Ep & H)].
  - rewrite E. eexists _, _. split; [reflexivity|]. discriminate.
  - destruct (parsed_facts _ Ep) as [_ Hl].
    destruct H as [[Hn E] | [(Hn & _ & e & E) | (Hn & Hx & E)]];
      rewrite E; eexists _, _; (split; [reflexivity|]); simpl.
    + rewrite Hn. discriminate.
    + discriminate.
    + intros Hc. injection Hc as Hc. rewrite Hc. simpl.
      destruct (sql parsed) as [s|] eqn:Es; simpl.
      * destruct (truthy s) eqn:Ets; intros text H; injection H as <-.
        -- split; [exact (Hx s eq_refl Ets)|].
           split; [exact (Hl Hc s eq_refl) | reflexivity].
        -- split; [apply sqlIsNotSqlRequest_nil|].
           split; [simpl; lia | intros C; contradiction].
      * intros text H; injection H as <-.
        split; [apply sqlIsNotSqlRequest_nil|].
        split; [simpl; lia | intros C; contradiction].
Qed.

Lemma X17_well_formed_reply :
  exists data sql,
    Routes.interpret
      (Some (lines ["CODE:SUCCESS"; EmptyString; "SELECT 1;"]%string))
    = Done (data, sql)
    /\ Routes.Data.code data = Some SUCCESS
    /\ Routes.Data.sql data = Some (str "SELECT 1;")
    /\ sql = Some (str "SELECT 1;").
Proof.
  destruct (X17_success_sql_in_the_response_data
              (Some (lines ["CODE:SUCCESS"; EmptyString; "SELECT 1;"]%string)))
    as (data & sql & E & H).
  exists data, sql. split; [exact E|].
  assert (E' : exists d s,
             Routes.interpret
               (Some (lines ["CODE:SUCCESS"; EmptyString; "SELECT 1;"]%string))
             = Done (d, s)
             /\ Routes.Data.code d = Some SUCCESS
             /\ Routes.Data.sql d = Some (str "SELECT 1;"))
    by (eexists _, _; vm_compute; repeat split).
  destruct E' as (d & s & E' & Hc & Hs). rewrite E in E'.
  injection E' as <- <-. split; [exact Hc|]. split; [exact Hs|].
  apply (H Hc _ Hs). discriminate.
Defined.

Lemma interpret_done content :
  exists data sql, Routes.interpret content = Done (data, sql).
Proof.
  destruct (interpret_cases content)
    as [[_ E] | (c & parsed & _ & _ & _ & H)].
  - eexists _, _. exact E.
  - destruct H as [[_ E] | [(_ & _ & e & E) | (_ & _ & E)]];
      eexists _, _; exact E.
Qed.

(** The response data carry no [validated] yet, and a non-empty [sql] in
    them is the text the handler goes on to validate. *)
Lemma interpret_sql content data sql :
  Routes.interpret content = Done (data, sql) ->
  Routes.Data.validated data = None
  /\ forall text, Routes.Data.sql data = Some text -> text <> [] ->
       sql = Some text /\ truthy text = true.
Proof.
  intros E.
  destruct (interpret_cases content)
    as [[Hc E'] | (c & parsed & -> & Ht & Ep & H)].
  - rewrite E in E'. injection E' as -> ->. split; [reflexivity|].
    discriminate.
  - destruct H as [[Hn E'] | [(Hn & _ & e & E') | (Hn & _ & E')]];
      rewrite E in E'; injection E' as -> ->; (split; [reflexivity|]);
      simpl.
    + rewrite Hn. simpl. intros text H; injection H as <-. contradiction.
    + intros text H; injection H as <-. contradiction.
    + destruct (AICode_eqb (code parsed) SUCCESS);
        [|intros text H; injection H as <-; contradiction].
      destruct (sql parsed) as [s|]; simpl;
        [|intros text H; injection H as <-; contradiction].
      destruct (truthy s) eqn:Es; intros text H; injection H as <-;
        [auto | contradiction].
Qed.

(** X18: the fix route never answers with SQL that [validateSql] did not
    accept. A success reply has status 200, and a non-empty [sql] in it was
    accepted (without a table list) and is marked [validated]; any other
    reply has status 400, code UNSAFE_SQL and the error of [validateSql] as
    [reason]. *)
Theorem X18_fix_route_returns_validated_sql
    (astify : jsstring -> jsval + jsstring) content response status :
  Routes.fixReply astify content = Done (response, status) ->
  match response with
  | Response.Success data =>
      status = 200
      /\ forall text, Routes.Data.sql data = Some text -> text <> [] ->
           Routes.Data.validated data = Some true
           /\ exists statements,
                validateSql astify text None = Done (Ok statements)
  | Response.Failure error =>
      status = 400
      /\ Response.code error = Some (str "UNSAFE_SQL")
      /\ exists text e,
           validateSql astify text None = Done (Rejected e)
           /\ Response.details error
              = Some (obj [("reason", JStr e)]%string)
  end.
Proof.
  unfold Routes.fixReply.
  destruct (Routes.interpret content) as [[data sql]|] eqn:E; cbn [bind];
    [|discriminate].
  destruct (interpret_sql content E) as [Hv Hs].
  destruct (Routes.truthyOpt sql) eqn:Et.
  - destruct sql as [s|]; [|discriminate]. simpl in Et.
    destruct (validateSql astify s None) as [[statements|e]|] eqn:Ev;
      cbn [bind]; [| |discriminate]; intros H; injection H as <- <-.
    + split; [reflexivity|]. simpl. intros text Hd Hne.
      destruct (Hs text Hd Hne) as [Hq _]. injection Hq as ->.
      split; [reflexivity|]. exists statements. exact Ev.
    + split; [reflexivity|]. split; [reflexivity|]. exists s, e.
      split; [exact Ev | reflexivity].
  - intros H; injection H as <- <-. split; [reflexivity|].
    intros text Hd Hne. destruct (Hs text Hd Hne) as [-> Hq].
    simpl in Et. congruence.
Qed.

Lemma X18_fixed_query_is_validated :
  200 = 200
  /\ forall text,
       Some (str "SELECT * FROM students") = Some text -> text <> [] ->
       Some true = Some true
       /\ exists statements,
            validateSql sampleAstify text None = Done (Ok statements).
Proof.
  apply (@X18_fix_route_returns_validated_sql sampleAstify
           (Some (lines ["CODE:SUCCESS"; EmptyString;
                         "SELECT * FROM students"]%string))
           (Response.Success
              {| Routes.Data.code := Some SUCCESS;
                 Routes.Data.message := Some (CODE_MESSAGES SUCCESS);
                 Routes.Data.sql := Some (str "SELECT * FROM students");
                 Routes.Data.explanation := None;
                 Routes.Data.validated := Some true |})
           200).
  vm_compute. reflexivity.
Defined.

(** X19: the generate route validates only when [runSql] is [true]. With
    [runSql] true, a non-empty [sql] in a success reply was accepted by
    [validateSql] with the table list of the request and is marked
    [validated]; otherwise the parser is never consulted: the reply is the
    response data, status 200, nothing marked. *)
Theorem X19_generate_route_validates_on_request
    (astify : jsstring -> jsval + jsstring) runSql allowedTables content :
  (runSql = Some true ->
   forall data status,
     Routes.generateReply astify runSql allowedTables content
     = Done (Response.Success data, status) ->
     forall text, Routes.Data.sql data = Some text -> text <> [] ->
       Routes.Data.validated data = Some true
       /\ exists statements,
            validateSql astify text allowedTables = Done (Ok statements))
  /\ (runSql <> Some true ->
      exists data sql,
        Routes.interpret content = Done (data, sql)
        /\ Routes.Data.validated data = None
        /\ Routes.generateReply astify runSql allowedTables content
           = Done (Response.Success data, 200)).
Proof.
  unfold Routes.generateReply. split.
  - intros -> data status.
    destruct (Routes.interpret content) as [[data0 sql]|] eqn:E; cbn [bind];
      [|discriminate].
    destruct (interpret_sql content E) as [Hv Hs].
    cbn [andb]. destruct (Routes.truthyOpt sql) eqn:Et.
    + destruct sql as [s|]; [|discriminate].
      destruct (validateSql astify s allowedTables) as [[statements|e]|]
        eqn:Ev; cbn [bind]; try discriminate.
      intros H; injection H as <- <-. simpl. intros text Hd Hne.
      destruct (Hs text Hd Hne) as [Hq _]. injection Hq as ->.
      split; [reflexivity|]. exists statements. exact Ev.
    + intros H; injection H as <- <-. intros text Hd Hne.
      destruct (Hs text Hd Hne) as [-> Hq]. simpl in Et. congruence.
  - intros Hr.
    destruct (interpret_done content) as (data & sql & E).
    exists data, sql. split; [exact E|].
    split; [exact (proj1 (interpret_sql content E))|].
    rewrite E. cbn [bind].
    destruct runSql as [[|]|]; try reflexivity. contradiction.
Qed.

Lemma X19_run_sql_sample :
  Some true = Some true
  /\ exists statements,
       validateSql sampleAstify (str "SELECT * FROM students")
         (Some [str "students"]) = Done (Ok statements).
Proof.
  apply (proj1 (X19_generate_route_validates_on_request sampleAstify
                  (Some true) (Some [str "students"])
                  (Some (lines ["CODE:SUCCESS"; EmptyString;
                                "SELECT * FROM students"]%string)))
           eq_refl
           {| Routes.Data.code := Some SUCCESS;
              Routes.Data.message := Some (CODE_MESSAGES SUCCESS);
              Routes.Data.sql := Some (str "SELECT * FROM students");
              Routes.Data.explanation := None;
              Routes.Data.validated := Some true |}
           200).
  - vm_compute. reflexivity.
  - reflexivity.
  - discriminate.
Defined.

Lemma trim_truthy c rest x : trim c = x :: rest -> truthy c = true.
Proof. destruct c; [discriminate | reflexivity]. Qed.

(** X20: a reply marked NOT_SQL_REQUEST at its start never reaches the
    parser. Both routes answer it with status 200 and the same data, code
    NOT_SQL_REQUEST, the empty string as [sql], nothing marked validated,
    whatever the parser, [runSql] and the table list, and whatever SQL the
    reply goes on with. *)
Theorem X20_not_sql_request_is_not_validated
    (astify : jsstring -> jsval + jsstring) runSql allowedTables c :
  startsWithMarker NOT_SQL_REQUEST c ->
  exists data,
    Routes.fixReply astify (Some c) = Done (Response.Success data, 200)
    /\ Routes.generateReply astify runSql allowedTables (Some c)
       = Done (Response.Success data, 200)
    /\ Routes.Data.code data = Some NOT_SQL_REQUEST
    /\ Routes.Data.sql data = Some []
    /\ Routes.Data.validated data = None.
Proof.
  intros H.
  assert (Ht : truthy c = true).
  { destruct H as (rest & [H|H]); exact (trim_truthy c H). }
  assert (H' : startsWithMarker NOT_SQL_REQUEST (trim c)).
  { destruct H as (rest & H). exists rest. rewrite trim_idem. exact H. }
  destruct (@not_sql_request_stays (trim c)
              (setSql [] (setMessage (CODE_MESSAGES NOT_SQL_REQUEST)
                            (setCode NOT_SQL_REQUEST initial))))
    as (parsed & Ep & Hc & _ & _).
  { rewrite (detectCode_not_sql_request_marker H'). reflexivity. }
  { reflexivity. }
  assert (E : Routes.interpret (Some c)
              = Done (Routes.dataOf parsed (Some []), Some [])).
  { unfold Routes.interpret. simpl Routes.truthyOpt. rewrite Ht, Ep.
    cbn [bind]. rewrite Hc. reflexivity. }
  exists (Routes.dataOf parsed (Some [])).
  unfold Routes.fixReply, Routes.generateReply. rewrite E. cbn [bind].
  simpl Routes.truthyOpt. rewrite andb_false_r.
  split; [reflexivity|]. split; [reflexivity|].
  simpl. rewrite Hc. auto.
Qed.

Lemma X20_marker_then_drop_table :
  exists data,
    Routes.fixReply sampleAstify
      (Some (lines ["CODE:NOT_SQL_REQUEST"; "```sql"; "DROP TABLE students;";
                    "```"]%string))
    = Done (Response.Success data, 200)
    /\ Routes.generateReply sampleAstify (Some true) None
         (Some (lines ["CODE:NOT_SQL_REQUEST"; "```sql";
                       "DROP TABLE students;"; "```"]%string))
       = Done (Response.Success data, 200)
    /\ Routes.Data.code data = Some NOT_SQL_REQUEST
    /\ Routes.Data.sql data = Some []
    /\ Routes.Data.validated data = None.
Proof.
  apply X20_not_sql_request_is_not_validated.
  exists (lines [EmptyString; "```sql"; "DROP TABLE students;"; "```"]%string).
  left. reflexivity.
Defined.

(** ** Parser errors, and when a text is accepted *)

(** X21: an exception of the parser never escapes [validateSql]: on a text
    with a fragment it becomes a rejection whose error is the parser's
    message after "SQL parse error: ", whatever the table list. *)
Theorem X21_parser_exception_is_a_rejection
    (astify : jsstring -> jsval + jsstring) sql allowedTables msg :
  fragments sql <> [] ->
  astify sql = inr msg ->
  parseSqlToAst astify sql = inr (str "SQL parse error: " ++ msg)
  /\ validateSql astify sql allowedTables
     = Done (Rejected (str "SQL parse error: " ++ msg)).
Proof.
  intros Hf Ha. unfold validateSql, parseSqlToAst.
  rewrite (fragments_truthy sql Hf), Ha. cbn [negb].
  destruct (fragments sql); [contradiction|]. split; reflexivity.
Qed.

Lemma X21_unknown_text :
  parseSqlToAst sampleAstify (str "SELECT FROM WHERE")
  = inr (str "SQL parse error: " ++ str "Unexpected input")
  /\ validateSql sampleAstify (str "SELECT FROM WHERE") None
     = Done (Rejected (str "SQL parse error: " ++ str "Unexpected input")).
Proof.
  apply X21_parser_exception_is_a_rejection.
  - vm_compute. discriminate.
  - reflexivity.
Defined.

Lemma passed_validateNode sql allowedTables node :
  passed sql allowedTables node ->
  validateNode sql allowedTables node = Done None.
Proof.
  intros [(type & Et & Hin) Hb Ht]. unfold validateNode.
  rewrite Et. cbn [bind]. apply arrayIncludes_In in Hin. rewrite Hin.
  cbn [negb]. rewrite (find_none_forall _ _ Hb).
  destruct allowedTables as [allowed|]; [|reflexivity].
  destruct allowed as [|a allowed]; [reflexivity|].
  cbn [List.length Nat.ltb Nat.leb].
  destruct (Ht (a :: allowed) eq_refl) as (tablesFound & Ex & Hall);
    [discriminate|].
  rewrite Ex. cbn [bind]. rewrite find_none_forall; [reflexivity|].
  intros x Hx. apply negb_false_iff, arrayIncludes_In, Hall, Hx.
Qed.

(** X22: [validateSql] rejects nothing it has no cause to reject. A text
    with a fragment that the parser turns into a tree is accepted, with that
    tree as [statements], as soon as every statement has an allow-listed
    kind, no blocked pattern matches the text and, under a non-empty table
    list, every referenced table is on the list. *)
Theorem X22_accepted_when_every_check_passes
    (astify : jsstring -> jsval + jsstring) sql allowedTables ast :
  fragments sql <> [] ->
  astify sql = inl ast ->
  Forall (passed sql allowedTables) (flatten ast) ->
  validateSql astify sql allowedTables = Done (Ok ast).
Proof.
  intros Hf Ha Hp.
  rewrite (@validateSql_parsed astify sql allowedTables ast
             (fragments_truthy sql Hf) Hf Ha).
  assert (Hn : validateNodes sql allowedTables (flatten ast) = Done None).
  { induction Hp as [|node nodes Hnode _ IH]; simpl; [reflexivity|].
    rewrite (passed_validateNode Hnode). exact IH. }
  rewrite Hn. reflexivity.
Qed.

Lemma X22_students_query_accepted :
  validateSql sampleAstify studentsQuery (Some [str "students"])
  = Done (Ok studentsAst).
Proof.
  apply X22_accepted_when_every_check_passes.
  - vm_compute. discriminate.
  - vm_compute. reflexivity.
  - constructor; [|constructor]. split.
    + exists (str "select"). split; [reflexivity|]. left. reflexivity.
    + intros b Hb. vm_compute in Hb.
      repeat (destruct Hb as [<-|Hb]; [vm_compute; reflexivity|]).
      contradiction.
    + intros allowed H _. injection H as <-.
      exists [str "students"]. split; [reflexivity|].
      intros table Ht. exact Ht.
Defined.

(** ** The ceiling always explains itself *)

Lemma checkLineCount_explains st :
  l_code st = SUCCESS ->
  l_code (checkLineCount st) = COMPLEX_QUERY ->
  truthy (l_explanation (checkLineCount st)) = true.
Proof.
  intros Hc. unfold checkLineCount.
  destruct (_ && _); [|congruence].
  destruct (50 <? _); [|congruence].
  destruct (negb _) eqn:E; intros _;
    unfold setExplanation, setSql, setMessage, setCode in *;
    cbn [l_explanation l_sql l_code l_message] in *.
  - apply tooLongExplanation_truthy.
  - apply negb_false_iff in E. exact E.
Qed.

(** X23: when the line ceiling turns a SUCCESS into COMPLEX_QUERY, the
    response always has an explanation: the one found in the reply or the
    sentence that gives the number of lines. *)
Theorem X23_ceiling_override_is_explained response :
  exists r, parseAIResponse response = Done r
    /\ (detected response = SUCCESS -> code r = COMPLEX_QUERY ->
        exists e, explanation r = Some e /\ e <> []).
Proof.
  destruct (extracted_done response) as [st E].
  eexists. split; [unfold parseAIResponse; rewrite E; reflexivity|].
  intros Hd Hc. simpl in Hc |- *.
  destruct (@extracted_keeps _ _ E) as (_ & Hk). rewrite Hd in Hk.
  set (st1 := checkLineCount st) in *.
  set (st2 := fallbackSql response st1) in *.
  destruct (fallbackSql_keeps response st1) as (Hc2 & _ & He2).
  fold st2 in Hc2, He2.
  assert (Ht : truthy (l_explanation (checkLineCount st2)) = true).
  { destruct (AICode_eqb (l_code st2) SUCCESS) eqn:Es.
    - apply AICode_eqb_eq in Es. apply checkLineCount_explains; assumption.
    - assert (Hn : l_code st2 <> SUCCESS)
        by (intros C; apply AICode_eqb_eq in C; congruence).
      rewrite (checkLineCount_idle st2 Hn) in *.
      rewrite He2. apply checkLineCount_explains.
      + destruct Hk as [Hk|Hk]; [exact Hk|].
        exfalso. unfold st1 in Hc2.
        rewrite (checkLineCount_idle st) in Hc2 by (rewrite Hk; discriminate).
        congruence.
      + unfold st1 in *. congruence. }
  unfold orUndefined. rewrite Ht. eexists. split; [reflexivity|].
  intros C. rewrite C in Ht. discriminate.
Qed.

Lemma X23_fifty_one_lines_explained :
  exists e, Some (tooLongExplanation 51) = Some e /\ e <> [].
Proof.
  destruct (X23_ceiling_override_is_explained (successWithLines 51))
    as (r & E & H).
  assert (E' : parseAIResponse (successWithLines 51) =
               Done {| code := COMPLEX_QUERY;
                       message := CODE_MESSAGES COMPLEX_QUERY;
                       sql := Some [];
                       explanation := Some (tooLongExplanation 51) |})
    by (vm_compute; reflexivity).
  rewrite E' in E. injection E as <-.
  apply H; [vm_compute|]; reflexivity.
Defined.
